(** * hezar: the [Config] container

    A shallow embedding of [hezar/configs.py] (the [Config] dataclass and
    the category base classes) and of the two config classes of
    [hezar/preprocessors/tokenizers/bpe.py], together with the properties
    of the specification that are about them.

    Python objects are embedded as follows.
    - A value is a tree: [None], booleans, integers, floats, strings,
      lists, [str]-keyed dicts (insertion ordered association lists),
      dataclass instances (class name and instance [__dict__]),
      properties and functions (as found in class namespaces).
    - A class is a record holding [__name__], [__mro__] (as names), the
      [__annotations__] of its own body and its own namespace; the classes
      of a program live in a class table indexed by name.
    - The objects whose identity matters ([self] and the dictionary handed
      to [update]) live in a heap; the file system, the log of the
      module's logger and the log of remote downloads form the rest of the
      state threaded through the methods.
    - A raised exception is the [Raise] result; the state reached when it
      is raised is kept. *)

From Stdlib Require Import ZArith Ascii String List Floats Lia.
From stdpp Require Import base option list gmap strings.

#[local] Set Warnings "-register-all".
#[local] Open Scope string_scope.

(** ** Strings: the [str] methods the source calls *)

Module Str.

Definition is_upper (c : ascii) : bool :=
  let n := nat_of_ascii c in (65 <=? n)%nat && (n <=? 90)%nat.

Definition lower_char (c : ascii) : ascii :=
  if is_upper c then ascii_of_nat (nat_of_ascii c + 32) else c.

(** [s.lower()] on ASCII text. *)
Fixpoint lower (s : string) : string :=
  match s with
  | EmptyString => EmptyString
  | String c s' => String (lower_char c) (lower s')
  end.

(** [s.startswith(p)] *)
Definition startswith (p s : string) : bool := String.prefix p s.

(** [s.endswith("/")] *)
Fixpoint endswith_char (c : ascii) (s : string) : bool :=
  match s with
  | EmptyString => false
  | String a EmptyString => Ascii.eqb a c
  | String _ s' => endswith_char c s'
  end.

(** [s.replace(old, new)] for a non-empty [old]: occurrences are found
    from the left and do not overlap.  [skip] counts the characters of
    an occurrence that are still to be dropped. *)
Fixpoint replace_from (old new : string) (skip : nat) (s : string) : string :=
  match s with
  | EmptyString => EmptyString
  | String c s' =>
      match skip with
      | S k => replace_from old new k s'
      | O =>
          if String.prefix old s
          then new ++ replace_from old new (String.length old - 1) s'
          else String c (replace_from old new 0 s')
      end
  end.

Definition replace (old new s : string) : string := replace_from old new 0 s.

(** [s.split(sep)] for a one character separator. *)
Fixpoint split (sep : ascii) (s : string) : list string :=
  match s with
  | EmptyString => [EmptyString]
  | String c s' =>
      if Ascii.eqb c sep then EmptyString :: split sep s'
      else match split sep s' with
           | [] => [String c EmptyString]
           | w :: ws => String c w :: ws
           end
  end.

End Str.

(** ** Exceptions and results *)

Inductive exn : Type :=
| KeyError (key : string)
| AttributeError (msg : string)
| TypeError (msg : string)
| EnvironmentError (msg : string)
| FileExistsError (path : string)
| FileNotFoundError (path : string)
| NotADirectoryError (path : string)
| IsADirectoryError (path : string)
| IndexError (msg : string)
| HubDownloadError (repo_id filename : string)
| RegistryLookupError (name config_type : string).

Inductive result (A : Type) : Type :=
| Ok (a : A)
| Raise (e : exn).
Arguments Ok {A} a.
Arguments Raise {A} e.

Definition rbind {A B} (r : result A) (k : A -> result B) : result B :=
  match r with
  | Ok a => k a
  | Raise e => Raise e
  end.

Definition is_ok {A} (r : result A) : bool :=
  match r with Ok _ => true | Raise _ => false end.

(** ** Values *)

Inductive value : Type :=
| VNone
| VBool (b : bool)
| VInt (n : Z)
| VFloat (x : float)
| VStr (s : string)
| VList (xs : list value)
| VDict (items : list (string * value))
| VInst (cls : string) (attrs : list (string * value))
| VProperty (getter : string)
| VFunction (name : string).

(** ** Induction on values *)

Section ValueInd.
Variable P : value -> Prop.
Hypothesis HNone : P VNone.
Hypothesis HBool : forall b, P (VBool b).
Hypothesis HInt : forall n, P (VInt n).
Hypothesis HFloat : forall x, P (VFloat x).
Hypothesis HStr : forall s, P (VStr s).
Hypothesis HList : forall xs, Forall P xs -> P (VList xs).
Hypothesis HDict : forall items, Forall (fun kv => P (snd kv)) items -> P (VDict items).
Hypothesis HInst : forall cls attrs, Forall (fun kv => P (snd kv)) attrs -> P (VInst cls attrs).
Hypothesis HProperty : forall g, P (VProperty g).
Hypothesis HFunction : forall f, P (VFunction f).

Fixpoint value_nested_ind (v : value) : P v :=
  let fix on_items (items : list (string * value)) : Forall (fun kv => P (snd kv)) items :=
    match items with
    | [] => List.Forall_nil _
    | (k, x) :: rest =>
        @List.Forall_cons _ _ (k, x) rest (value_nested_ind x) (on_items rest)
    end in
  match v with
  | VNone => HNone
  | VBool b => HBool b
  | VInt n => HInt n
  | VFloat x => HFloat x
  | VStr s => HStr s
  | VList xs =>
      HList xs ((fix on_list (xs : list value) : Forall P xs :=
                   match xs with
                   | [] => List.Forall_nil _
                   | x :: rest =>
                       @List.Forall_cons _ _ x rest (value_nested_ind x) (on_list rest)
                   end) xs)
  | VDict items => HDict items (on_items items)
  | VInst cls attrs => HInst cls attrs (on_items attrs)
  | VProperty g => HProperty g
  | VFunction f => HFunction f
  end.
End ValueInd.

(** ** Dicts: insertion ordered, one entry per key *)

Module Dict.
Section Ops.
Context {V : Type}.

Fixpoint get (k : string) (d : list (string * V)) : option V :=
  match d with
  | [] => None
  | (k', v) :: d' => if String.eqb k k' then Some v else get k d'
  end.

Definition mem (k : string) (d : list (string * V)) : bool :=
  match get k d with Some _ => true | None => false end.

(** [d[k] = v]: an existing key keeps its position, a new key goes
    last. *)
Fixpoint set (k : string) (v : V) (d : list (string * V)) : list (string * V) :=
  match d with
  | [] => [(k, v)]
  | (k', v') :: d' =>
      if String.eqb k k' then (k', v) :: d' else (k', v') :: set k v d'
  end.

(** [d.update(other)] *)
Definition update (d other : list (string * V)) : list (string * V) :=
  fold_left (fun acc kv => set (fst kv) (snd kv) acc) other d.

Definition keys (d : list (string * V)) : list string := map fst d.

(** [{k: v for k, v in d.items() if p(k, v)}] *)
Definition filter_items (p : string -> V -> bool) (d : list (string * V))
  : list (string * V) :=
  List.filter (fun kv => p (fst kv) (snd kv)) d.
End Ops.
End Dict.

(** ** Classes

    [k_annotations] is the [__annotations__] entry of the class's own
    namespace: [None] when the class body annotates no name.  [k_dict] is
    the rest of the namespace written in the class body, after the
    [dataclass] decorator replaced each [field(...)] by its default. *)

Record klass : Type := Klass {
  k_name : string;
  k_mro : list string;
  k_annotations : option (list string);
  k_dict : list (string * value)
}.

(** [class name(base): body], decorated with [@dataclass]. *)
Definition dataclass (name : string) (base : klass)
    (annotations : option (list string)) (body : list (string * value)) : klass :=
  {| k_name := name;
     k_mro := name :: k_mro base;
     k_annotations := annotations;
     k_dict := body |}.

Definition object_class : klass :=
  {| k_name := "object"; k_mro := ["object"]; k_annotations := None; k_dict := [] |}.

(** Names that every dataclass answers to without its body mentioning
    them: the attributes of [object], those the metaclass [type] gives to
    a class, and those the [dataclass] decorator adds (CPython 3.11). *)
Definition object_attrs : list string :=
  [ "__class__"; "__delattr__"; "__dir__"; "__doc__"; "__eq__"; "__format__";
    "__ge__"; "__getattribute__"; "__getstate__"; "__gt__"; "__hash__";
    "__init__"; "__init_subclass__"; "__le__"; "__lt__"; "__ne__"; "__new__";
    "__reduce__"; "__reduce_ex__"; "__repr__"; "__setattr__"; "__sizeof__";
    "__str__"; "__subclasshook__";
    "__dict__"; "__module__"; "__weakref__";
    "__dataclass_fields__"; "__dataclass_params__"; "__match_args__" ].

Definition type_attrs : list string :=
  [ "__name__"; "__qualname__"; "__mro__"; "__bases__"; "__base__"; "mro";
    "__subclasses__"; "__call__"; "__instancecheck__"; "__subclasscheck__";
    "__prepare__"; "__basicsize__"; "__itemsize__"; "__flags__";
    "__weakrefoffset__"; "__dictoffset__"; "__text_signature__";
    "__or__"; "__ror__"; "__annotations__" ].

Definition interpreter_attrs : list string := object_attrs ++ type_attrs.

Definition string_in (k : string) (l : list string) : bool :=
  existsb (String.eqb k) l.

(** The attributes of an instance that are served by a data descriptor
    of [object] or of the layout of its class: they are found before the
    instance [__dict__] is looked at. *)
Definition slot_attrs : list string := [ "__class__"; "__dict__"; "__weakref__" ].

(** [type(v).__name__] *)
Definition type_name (v : value) : string :=
  match v with
  | VNone => "NoneType"
  | VBool _ => "bool"
  | VInt _ => "int"
  | VFloat _ => "float"
  | VStr _ => "str"
  | VList _ => "list"
  | VDict _ => "dict"
  | VInst cls _ => cls
  | VProperty _ => "property"
  | VFunction _ => "function"
  end.

Section Classes.

(** The classes of the running program, by [__name__]. *)
Variable ct : gmap string klass.

Definition mro_of (cls : string) : list string :=
  match ct !! cls with
  | Some K => k_mro K
  | None => []
  end.

(** Lookup of [k] in the namespaces of the classes of [mro], in order. *)
Fixpoint mro_lookup (mro : list string) (k : string) : option value :=
  match mro with
  | [] => None
  | c :: rest =>
      match ct !! c with
      | Some K =>
          match Dict.get k (k_dict K) with
          | Some v => Some v
          | None => mro_lookup rest k
          end
      | None => mro_lookup rest k
      end
  end.

(** The class attribute [cls.k] written in a class body. *)
Definition type_lookup (cls k : string) : option value :=
  mro_lookup (mro_of cls) k.

(** [hasattr(cls, k)] *)
Definition hasattr (cls k : string) : bool :=
  match type_lookup cls k with
  | Some _ => true
  | None => string_in k interpreter_attrs
  end.

(** The first [__annotations__] found along [mro]: what the attribute
    lookup [self.__annotations__] reaches in the classes. *)
Fixpoint mro_annotations (mro : list string) : option (list string) :=
  match mro with
  | [] => None
  | c :: rest =>
      match ct !! c with
      | Some K =>
          match k_annotations K with
          | Some names => Some names
          | None => mro_annotations rest
          end
      | None => mro_annotations rest
      end
  end.

(** *** What [@dataclass] computes

    A field is a name with its default, if any.  The fields of a class
    are those of its bases, from the farthest to the nearest, then the
    names its own body annotates; a name declared again keeps its place
    and takes the new default, which is [getattr(cls, name, MISSING)]
    when the class is created. *)
Definition own_fields (K : klass) : list (string * option value) :=
  match k_annotations K with
  | None => []
  | Some names => map (fun n => (n, mro_lookup (k_mro K) n)) names
  end.

Definition dataclass_fields (cls : string) : list (string * option value) :=
  fold_left
    (fun acc c =>
       match ct !! c with
       | Some K => Dict.update acc (own_fields K)
       | None => acc
       end)
    (rev (mro_of cls)) [].

(** [[f.name for f in fields(cls)]] *)
Definition field_names (cls : string) : list string :=
  Dict.keys (dataclass_fields cls).

Definition is_field (cls k : string) : bool :=
  Dict.mem k (dataclass_fields cls).

(** *** Attribute assignment *)

(** The class whose layout gives the instances their [__dict__] and
    [__weakref__]: the last one of the MRO before [object]. *)
Definition layout_class (cls : string) : string :=
  List.last (removelast (mro_of cls)) cls.

(** [setattr(obj, k, v)] on an instance.  A property found in the classes
    has no setter in this program; any other name found in the classes is
    no data descriptor, and is stored in the instance [__dict__].  Of the
    names that the classes do not define, [__class__] takes a class only,
    which no value here is, [__dict__] takes a dictionary, whose items
    become the attributes of the instance (values are trees: that the
    instance then shares the dictionary object is not followed), and
    [__weakref__] is read-only; any other name is stored in the instance
    [__dict__]. *)
Definition setattr (obj : value) (k : string) (v : value) : result value :=
  match obj with
  | VInst cls attrs =>
      match type_lookup cls k with
      | Some (VProperty _) =>
          Raise (AttributeError ("property '" ++ k ++ "' of '" ++ cls ++ "' object has no setter"))
      | Some _ => Ok (VInst cls (Dict.set k v attrs))
      | None =>
          if String.eqb k "__class__" then
            Raise (TypeError ("__class__ must be set to a class, not '" ++ type_name v
                              ++ "' object"))
          else if String.eqb k "__dict__" then
            match v with
            | VDict items => Ok (VInst cls items)
            | _ =>
                Raise (TypeError ("__dict__ must be set to a dictionary, not a '"
                                  ++ type_name v ++ "'"))
            end
          else if String.eqb k "__weakref__" then
            Raise (AttributeError ("attribute '__weakref__' of '" ++ layout_class cls
                                   ++ "' objects is not writable"))
          else Ok (VInst cls (Dict.set k v attrs))
      end
  | _ => Raise (AttributeError ("object has no attribute '" ++ k ++ "'"))
  end.

(** *** The generated [__init__]

    Keyword arguments only, as [from_dict] calls it.  Arguments are
    bound before the body runs: a keyword that names no field, or a
    field with neither argument nor default, is a [TypeError].  The body
    then assigns every field, in order. *)
Fixpoint bind_fields (fs : list (string * option value)) (kwargs : list (string * value))
  : result (list (string * value)) :=
  match fs with
  | [] => Ok []
  | (f, dflt) :: fs' =>
      match Dict.get f kwargs, dflt with
      | Some v, _ | None, Some v =>
          rbind (bind_fields fs' kwargs) (fun rest => Ok ((f, v) :: rest))
      | None, None =>
          Raise (TypeError ("__init__() missing 1 required positional argument: '" ++ f ++ "'"))
      end
  end.

Definition bind_args (cls : string) (kwargs : list (string * value))
  : result (list (string * value)) :=
  let fs := dataclass_fields cls in
  match List.find (fun kv => negb (Dict.mem (fst kv) fs)) kwargs with
  | Some (k, _) =>
      Raise (TypeError ("__init__() got an unexpected keyword argument '" ++ k ++ "'"))
  | None => bind_fields fs kwargs
  end.

Fixpoint init_body (self : value) (bound : list (string * value)) : result value :=
  match bound with
  | [] => Ok self
  | (f, v) :: rest => rbind (setattr self f v) (fun self' => init_body self' rest)
  end.

(** The call [cls(k1=v1, ...)] with the keyword arguments [kwargs]. *)
Definition construct (cls : string) (kwargs : list (string * value)) : result value :=
  rbind (bind_args cls kwargs) (fun bound => init_body (VInst cls []) bound).

(** *** [dataclasses.asdict]

    Fields are read from the instance [__dict__], where [__init__] put
    every one of them; instances, lists and dicts are converted
    recursively, anything else is copied. *)
Fixpoint collect {A} (rs : list (string * result A)) : result (list (string * A)) :=
  match rs with
  | [] => Ok []
  | (k, r) :: rs' =>
      rbind r (fun a => rbind (collect rs') (fun rest => Ok ((k, a) :: rest)))
  end.

Fixpoint collect_list {A} (rs : list (result A)) : result (list A) :=
  match rs with
  | [] => Ok []
  | r :: rs' => rbind r (fun a => rbind (collect_list rs') (fun rest => Ok (a :: rest)))
  end.

Definition read_field {A} (cls : string) (attrs : list (string * result A)) (f : string)
  : string * result A :=
  match Dict.get f attrs with
  | Some r => (f, r)
  | None => (f, Raise (AttributeError ("'" ++ cls ++ "' object has no attribute '" ++ f ++ "'")))
  end.

Fixpoint asdict_inner (v : value) : result value :=
  match v with
  | VInst cls attrs =>
      let converted := map (fun kv => match kv with (k, x) => (k, asdict_inner x) end) attrs in
      rbind (collect (map (read_field cls converted) (field_names cls)))
            (fun items => Ok (VDict items))
  | VList xs =>
      rbind (collect_list (map asdict_inner xs)) (fun ys => Ok (VList ys))
  | VDict items =>
      rbind (collect (map (fun kv => match kv with (k, x) => (k, asdict_inner x) end) items))
            (fun items' => Ok (VDict items'))
  | _ => Ok v
  end.

Definition asdict (obj : value) : result (list (string * value)) :=
  match obj with
  | VInst _ _ =>
      match asdict_inner obj with
      | Ok (VDict items) => Ok items
      | Ok _ => Raise (TypeError "asdict() should be called on dataclass instances")
      | Raise e => Raise e
      end
  | _ => Raise (TypeError "asdict() should be called on dataclass instances")
  end.

End Classes.

(** ** The classes of [hezar/configs.py] *)

Definition Config : klass :=
  dataclass "Config" object_class None
    [ ("name", VProperty "name");
      ("config_type", VProperty "config_type");
      ("__getitem__", VFunction "__getitem__");
      ("__len__", VFunction "__len__");
      ("__iter__", VFunction "__iter__");
      ("dict", VFunction "dict");
      ("keys", VFunction "keys");
      ("get", VFunction "get");
      ("update", VFunction "update");
      ("load", VFunction "load");
      ("from_dict", VFunction "from_dict");
      ("save", VFunction "save");
      ("push_to_hub", VFunction "push_to_hub") ].

Definition ModelConfig : klass := dataclass "ModelConfig" Config None [].

Definition PreprocessorConfig : klass := dataclass "PreprocessorConfig" Config None [].

Definition DatasetConfig : klass :=
  dataclass "DatasetConfig" Config (Some ["task"]) [ ("task", VNone) ].

Definition EmbeddingConfig : klass := dataclass "EmbeddingConfig" Config None [].

Definition CriterionConfig : klass :=
  dataclass "CriterionConfig" Config
    (Some ["weight"; "reduce"; "ignore_index"])
    [ ("weight", VNone); ("reduce", VNone); ("ignore_index", VInt (-100)) ].

Definition LRSchedulerConfig : klass :=
  dataclass "LRSchedulerConfig" Config (Some ["verbose"]) [ ("verbose", VBool true) ].

Definition OptimizerConfig : klass :=
  dataclass "OptimizerConfig" Config
    (Some ["lr"; "weight_decay"; "scheduler"])
    [ ("lr", VNone); ("weight_decay", VFloat 0%float); ("scheduler", VNone) ].

Definition MetricConfig : klass := dataclass "MetricConfig" Config None [].

Definition TrainerConfig : klass :=
  dataclass "TrainerConfig" Config
    (Some [ "task"; "device"; "init_weights_from"; "dataset_config";
            "num_dataloader_workers"; "seed"; "optimizer"; "batch_size";
            "use_amp"; "metrics"; "num_epochs"; "save_freq"; "checkpoints_dir";
            "log_dir" ])
    [ ("task", VNone);
      ("device", VStr "cuda");
      ("init_weights_from", VNone);
      ("dataset_config", VNone);
      ("num_dataloader_workers", VInt 0);
      ("seed", VInt 42);
      ("optimizer", VNone);
      ("batch_size", VNone);
      ("use_amp", VBool false);
      ("metrics", VNone);
      ("num_epochs", VNone);
      ("save_freq", VInt 1);
      ("checkpoints_dir", VNone);
      ("log_dir", VNone) ].

Definition add_class (K : klass) (ct : gmap string klass) : gmap string klass :=
  <[k_name K := K]> ct.

Definition configs_classes : gmap string klass :=
  foldr add_class ∅
    [ object_class; Config; ModelConfig; PreprocessorConfig; DatasetConfig;
      EmbeddingConfig; CriterionConfig; LRSchedulerConfig; OptimizerConfig;
      MetricConfig; TrainerConfig ].

(** ** The classes of [hezar/preprocessors/tokenizers/bpe.py] *)

(** Modelled from the spec: [TokenizerConfig], of
    [hezar/preprocessors/tokenizers/tokenizer.py], a file that is not
    embedded here.  The specification calls it a specialization of
    [Config]; [BPETokenizer] is registered as a preprocessor.  Its own
    fields are unknown and none is assumed. *)
Definition TokenizerConfig : klass := dataclass "TokenizerConfig" PreprocessorConfig None [].

(** Modelled from the spec: [TokenizerTrainConfig], of the same missing
    file, a specialization of [Config] too; no field of its own is
    assumed. *)
Definition TokenizerTrainConfig : klass := dataclass "TokenizerTrainConfig" Config None [].

Definition BPETrainConfig : klass :=
  dataclass "BPETrainConfig" TokenizerTrainConfig
    (Some ["name"; "vocab_size"; "min_frequency"; "limit_alphabet"; "show_progress"])
    [ ("name", VStr "bpe_tokenizer");
      ("vocab_size", VInt 30000);
      ("min_frequency", VInt 2);
      ("limit_alphabet", VInt 1000);
      ("initial_alphabet", VList []);
      ("show_progress", VBool true) ].

Definition bpe_train_classes : gmap string klass :=
  foldr add_class configs_classes [ TokenizerConfig; TokenizerTrainConfig; BPETrainConfig ].

(** The class attribute [train_config] of [BPEConfig] is the instance
    [BPETrainConfig()] built when the class body runs. *)
Definition BPETrainConfig_default : value :=
  Eval vm_compute in
    match construct bpe_train_classes "BPETrainConfig" [] with
    | Ok v => v
    | Raise _ => VNone
    end.

Definition BPEConfig : klass :=
  dataclass "BPEConfig" TokenizerConfig
    (Some [ "name"; "truncation_strategy"; "padding_strategy"; "unk_token";
            "dropout"; "continuing_subword_prefix"; "end_of_word_suffix";
            "fuse_unk"; "train_config" ])
    [ ("name", VStr "bpe_tokenizer");
      ("truncation_strategy", VStr "no_truncation");
      ("padding_strategy", VStr "no_padding");
      ("special_tokens",
        VList [ VStr "<s>"; VStr "<pad>"; VStr "</s>"; VStr "<unk>"; VStr "<mask>";
                VStr "<|endoftext|>"; VStr "<|startoftext|>"; VStr "<nl>";
                VStr "<hs>"; VStr "<sep>"; VStr "<cls>" ]);
      ("unk_token", VNone);
      ("pad_token_id", VInt 0);
      ("pad_token", VStr "<pad>");
      ("dropout", VNone);
      ("continuing_subword_prefix", VStr "");
      ("end_of_word_suffix", VStr "");
      ("fuse_unk", VBool false);
      ("train_config", BPETrainConfig_default) ].

Definition hezar_classes : gmap string klass := add_class BPEConfig bpe_train_classes.

(** ** Paths and the file system

    The calls of [os.path], [os.makedirs] and [OmegaConf.load]/[save] that
    the methods make, on a POSIX file system seen as a set of directories
    and a map from files to the documents they hold.  A path names the
    node given by its normalised components (as [os.path.normpath] reads
    them); the root and the working directory always exist.  A path that
    the file system reads otherwise than [normpath] does (a file name
    followed by a separator, [..] after a directory that is missing) is
    outside this reading.  A document is the mapping that
    [OmegaConf.to_container] returns for the file. *)

Module Path.

(** [os.path.join(a, b)] *)
Definition join (a b : string) : string :=
  if Str.startswith "/" b then b
  else if (String.eqb a "" || Str.endswith_char "/" a)%bool then a ++ b
  else a ++ "/" ++ b.

(** [os.path.join(a, b, c)] *)
Definition join3 (a b c : string) : string := join (join a b) c.

(** [os.path.isabs(p)] *)
Definition isabs (p : string) : bool := Str.startswith "/" p.

(** One step of [normpath], on the components seen so far, last
    first. *)
Definition norm_step (abs : bool) (seen : list string) (comp : string) : list string :=
  if (String.eqb comp "" || String.eqb comp ".")%bool then seen
  else if String.eqb comp ".." then
    match seen with
    | [] => if abs then [] else [comp]
    | last :: before => if String.eqb last ".." then comp :: seen else before
    end
  else comp :: seen.

Definition components (p : string) : list string :=
  rev (fold_left (norm_step (isabs p)) (Str.split "/" p) []).

Definition node : Type := bool * list string.

Definition norm (p : string) : node := (isabs p, components p).

Definition parent (n : node) : node := (fst n, removelast (snd n)).

(** The ancestors of a node and the node itself, nearest to the root
    first; the root (or working directory) is left out. *)
Definition chain (n : node) : list node :=
  map (fun i => (fst n, take i (snd n))) (seq 1 (length (snd n))).

End Path.

Definition document : Type := list (string * value).

Module FS.

Record t : Type := Make {
  dirs : gset Path.node;
  files : gmap Path.node document
}.

Definition empty : t := {| dirs := ∅; files := ∅ |}.

Definition node_isdir (fs : t) (n : Path.node) : bool :=
  match snd n with
  | [] => true
  | _ => bool_decide (n ∈ dirs fs)
  end.

Definition node_isfile (fs : t) (n : Path.node) : bool :=
  match snd n with
  | [] => false
  | _ => bool_decide (is_Some (files fs !! n))
  end.

(** [os.path.isdir(p)] *)
Definition isdir (fs : t) (p : string) : bool :=
  negb (String.eqb p "") && node_isdir fs (Path.norm p).

(** [os.path.isfile(p)] *)
Definition isfile (fs : t) (p : string) : bool :=
  negb (String.eqb p "") && node_isfile fs (Path.norm p) && negb (node_isdir fs (Path.norm p)).

(** [os.makedirs(p, exist_ok=exist_ok)] *)
Definition makedirs (fs : t) (p : string) (exist_ok : bool) : result t :=
  let n := Path.norm p in
  if String.eqb p "" then Raise (FileNotFoundError p)
  else if node_isdir fs n then
    if exist_ok then Ok fs else Raise (FileExistsError p)
  else if node_isfile fs n then Raise (FileExistsError p)
  else if existsb (node_isfile fs) (Path.chain n) then Raise (NotADirectoryError p)
  else Ok {| dirs := dirs fs ∪ list_to_set (Path.chain n); files := files fs |}.

(** Writing the document [doc] to the file [p], as [OmegaConf.save(doc, p)]
    does through [open(p, "w")]. *)
Definition write (fs : t) (p : string) (doc : document) : result t :=
  let n := Path.norm p in
  if String.eqb p "" then Raise (FileNotFoundError p)
  else if node_isdir fs n then Raise (IsADirectoryError p)
  else if node_isfile fs (Path.parent n) then Raise (NotADirectoryError p)
  else if negb (node_isdir fs (Path.parent n)) then Raise (FileNotFoundError p)
  else Ok {| dirs := dirs fs; files := <[n := doc]> (files fs) |}.

(** Reading the document held by the file [p], as
    [OmegaConf.to_container(OmegaConf.load(p))] does. *)
Definition read (fs : t) (p : string) : result document :=
  let n := Path.norm p in
  if String.eqb p "" then Raise (FileNotFoundError p)
  else if node_isdir fs n then Raise (IsADirectoryError p)
  else match files fs !! n with
       | Some doc => Ok doc
       | None => Raise (FileNotFoundError p)
       end.

End FS.

(** ** The state of a run *)

Record download_request : Type := Download {
  dl_repo_id : string;
  dl_filename : string;
  dl_subfolder : string;
  dl_cache_dir : string;
  dl_repo_type : option string
}.

(** A file that the Hub serves. *)
Record remote_file : Type := Remote {
  rf_repo_id : string;
  rf_subfolder : string;
  rf_filename : string;
  rf_document : document
}.

Record world : Type := World {
  w_heap : gmap nat value;         (* objects with an identity, by address *)
  w_fs : FS.t;                     (* the local file system *)
  w_hub : list remote_file;        (* what the Hub serves *)
  w_downloads : list download_request;  (* calls of hf_hub_download, oldest first *)
  w_log : list string              (* messages of logger.warning, oldest first *)
}.

Definition set_heap (h : gmap nat value) (w : world) : world :=
  {| w_heap := h; w_fs := w_fs w; w_hub := w_hub w;
     w_downloads := w_downloads w; w_log := w_log w |}.

Definition set_fs (fs : FS.t) (w : world) : world :=
  {| w_heap := w_heap w; w_fs := fs; w_hub := w_hub w;
     w_downloads := w_downloads w; w_log := w_log w |}.

Definition add_download (r : download_request) (w : world) : world :=
  {| w_heap := w_heap w; w_fs := w_fs w; w_hub := w_hub w;
     w_downloads := w_downloads w ++ [r]; w_log := w_log w |}.

Definition add_log (msg : string) (w : world) : world :=
  {| w_heap := w_heap w; w_fs := w_fs w; w_hub := w_hub w;
     w_downloads := w_downloads w; w_log := w_log w ++ [msg] |}.

Definition empty_world : world :=
  {| w_heap := ∅; w_fs := FS.empty; w_hub := []; w_downloads := []; w_log := [] |}.

(** A method takes the state and returns a value or raises, with the
    state it leaves. *)
Definition M (A : Type) : Type := world -> result A * world.

Definition ret {A} (a : A) : M A := fun w => (Ok a, w).

Definition raise {A} (e : exn) : M A := fun w => (Raise e, w).

Definition bind {A B} (m : M A) (k : A -> M B) : M B :=
  fun w =>
    match m w with
    | (Ok a, w') => k a w'
    | (Raise e, w') => (Raise e, w')
    end.

Definition lift {A} (r : result A) : M A := fun w => (r, w).

Definition modify (f : world -> world) : M unit := fun w => (Ok tt, f w).

Definition gets {A} (f : world -> A) : M A := fun w => (Ok (f w), w).

Notation "'do' x <- c1 ; c2" := (bind c1 (fun x => c2))
  (at level 10, x name, c1 at level 100, c2 at level 200).
Notation "'run' c1 ; c2" := (bind c1 (fun _ => c2))
  (at level 10, c1 at level 100, c2 at level 200).

(** [for x in xs: body(x)] *)
Fixpoint for_each {A} (xs : list A) (body : A -> M unit) : M unit :=
  match xs with
  | [] => ret tt
  | x :: xs' => run body x; for_each xs' body
  end.

(** [logger.warning(msg)] *)
Definition logger_warning (msg : string) : M unit := modify (add_log msg).

(** ** Constants of [hezar/constants.py] *)

(** Modelled from the spec: the enumeration [ConfigType]
    ([hezar/constants.py] is not embedded here).  The
    specification lists its members: base, model, preprocessor, trainer,
    dataset, embedding, criterion, optimizer, lr_scheduler, metric; each
    is taken to be a string enumeration member whose value is that
    spelling, which is what lets the source call [replace] and [lower] on
    it. *)
Inductive ConfigType : Type :=
| BASE | MODEL | PREPROCESSOR | TRAINER | DATASET | EMBEDDING
| CRITERION | OPTIMIZER | LR_SCHEDULER | METRIC.

Definition ConfigType_value (t : ConfigType) : string :=
  match t with
  | BASE => "base"
  | MODEL => "model"
  | PREPROCESSOR => "preprocessor"
  | TRAINER => "trainer"
  | DATASET => "dataset"
  | EMBEDDING => "embedding"
  | CRITERION => "criterion"
  | OPTIMIZER => "optimizer"
  | LR_SCHEDULER => "lr_scheduler"
  | METRIC => "metric"
  end.

Definition ConfigType_eqb (a b : ConfigType) : bool :=
  String.eqb (ConfigType_value a) (ConfigType_value b).

Definition CONFIG_TYPES_MAPPING : list (string * ConfigType) :=
  [ ("Config", BASE);
    ("ModelConfig", MODEL);
    ("PreprocessorConfig", PREPROCESSOR);
    ("TrainerConfig", TRAINER);
    ("DatasetConfig", DATASET);
    ("EmbeddingConfig", EMBEDDING);
    ("CriterionConfig", CRITERION);
    ("OptimizerConfig", OPTIMIZER);
    ("LRSchedulerConfig", LR_SCHEDULER);
    ("MetricConfig", METRIC) ].
#[global] Arguments CONFIG_TYPES_MAPPING : simpl never.

(** ** The methods of [Config] *)

(** The message of the warning of [update]. *)
Definition update_warning (cls k : string) : string :=
  "`" ++ cls ++ "` does not take `" ++ k ++ "` as a config parameter!".

Section Program.

(** [snake_case] of [hezar/utils/common_utils.py] and the constants
    [DEFAULT_MODEL_CONFIG_FILE] and [HEZAR_CACHE_DIR] of
    [hezar/constants.py] are defined in files that are not embedded
    here: the methods are given for any function and any two strings. *)
Variable snake_case : string -> string.
Variable DEFAULT_MODEL_CONFIG_FILE : string.
Variable HEZAR_CACHE_DIR : string.

(** The classes of the program. *)
Variable ct : gmap string klass.

(** The registered config classes: registered name, config type, class. *)
Variable registry : list (string * string * string).

(** Modelled from the spec: [get_module_config_class], of [hezar/utils],
    which is not embedded here.  The registry maps a registered name and
    a config type to a config class; a pair that is not registered is a
    "no matching registered type" error. *)
Definition get_module_config_class (name config_type : value) : result string :=
  match name, config_type with
  | VStr n, VStr t =>
      match List.find (fun e => String.eqb (fst (fst e)) n && String.eqb (snd (fst e)) t) registry with
      | Some (_, cls) => Ok cls
      | None => Raise (RegistryLookupError n t)
      end
  | _, _ => Raise (RegistryLookupError "" "")
  end.

(** [self.__class__.__name__] *)
Definition class_name (self : value) : result string :=
  match self with
  | VInst cls _ => Ok cls
  | _ => Raise (TypeError "not a Config instance")
  end.

(** [Config.name] *)
Definition Config_name (self : value) : result string :=
  rbind (class_name self) (fun cls =>
    let name := snake_case (Str.replace "Config" "" cls) in
    let name := if String.eqb name "" then "base" else name in
    Ok name).

Definition newline : string := String (ascii_of_nat 10) EmptyString.

(** [Config.config_type] *)
Definition Config_config_type (self : value) : M string :=
  do cls <- lift (class_name self);
  do parent_class <-
    lift (match nth_error (mro_of ct cls) 1 with
          | Some c => Ok c
          | None => Raise (IndexError "tuple index out of range")
          end);
  do config_type <-
    lift (match Dict.get parent_class CONFIG_TYPES_MAPPING with
          | Some t => Ok t
          | None => Raise (KeyError parent_class)
          end);
  if ConfigType_eqb config_type BASE && negb (Dict.mem cls CONFIG_TYPES_MAPPING) then
    let config_type := Str.lower (Str.replace "Config" "" cls) in
    run logger_warning
          ("You are attempting to create a config class from the base class `Config` which is "
           ++ "not recommended!" ++ newline
           ++ "Your config class is " ++ cls ++ " "
           ++ "and the `config_type` will be `" ++ config_type ++ "`");
    ret config_type
  else
    match Dict.get cls CONFIG_TYPES_MAPPING with
    | Some t => ret (Str.lower (Str.replace "Config" "" (ConfigType_value t)))
    | None => raise (KeyError cls)
    end.

(** The [__annotations__] mapping of a class that annotates [names].  The
    annotation of a name is a type; which one is not followed. *)
Definition annotations_of (names : list string) : value :=
  VDict (map (fun n => (n, VFunction "type")) names).

(** [getattr(self, k)]: a property of the classes comes first, as do
    the three names that [object] and the layout of the class serve when
    the classes do not define them; then the instance [__dict__], then the
    other class attributes, among them the [__annotations__] of the
    nearest class that annotates a name, then what [object] provides (kept
    opaque, as is the class that [__class__] returns). *)
Definition getattr (self : value) (k : string) : M value :=
  match self with
  | VInst cls attrs =>
      match type_lookup ct cls k with
      | Some (VProperty getter) =>
          if String.eqb getter "name" then
            do n <- lift (Config_name self); ret (VStr n)
          else if String.eqb getter "config_type" then
            do t <- Config_config_type self; ret (VStr t)
          else raise (AttributeError ("unreadable attribute '" ++ k ++ "'"))
      | Some v =>
          match Dict.get k attrs with
          | Some x => ret x
          | None => ret v
          end
      | None =>
          if String.eqb k "__class__" then ret (VFunction k)
          else if String.eqb k "__dict__" then ret (VDict attrs)
          else if String.eqb k "__weakref__" then ret VNone
          else
            match Dict.get k attrs with
            | Some x => ret x
            | None =>
                match (if String.eqb k "__annotations__"
                       then mro_annotations ct (mro_of ct cls)
                       else None) with
                | Some names => ret (annotations_of names)
                | None =>
                    if string_in k object_attrs then ret (VFunction k)
                    else raise (AttributeError
                                  ("'" ++ cls ++ "' object has no attribute '" ++ k ++ "'"))
                end
            end
      end
  | _ => raise (AttributeError ("object has no attribute '" ++ k ++ "'"))
  end.

(** [Config.dict] *)
Definition Config_dict (self : value) : result (list (string * value)) :=
  asdict ct self.


(** [self.__annotations__.keys()]: the instance [__dict__] is looked up
    first, then the classes along the MRO. *)
Definition annotations_keys (self : value) : result (list string) :=
  match self with
  | VInst cls attrs =>
      match Dict.get "__annotations__" attrs with
      | Some (VDict items) => Ok (Dict.keys items)
      | Some _ => Raise (AttributeError "object has no attribute 'keys'")
      | None =>
          match mro_annotations ct (mro_of ct cls) with
          | Some names => Ok names
          | None =>
              Raise (AttributeError ("'" ++ cls ++ "' object has no attribute '__annotations__'"))
          end
      end
  | _ => Raise (AttributeError "object has no attribute '__annotations__'")
  end.

(** Reading and writing the object at an address. *)
Definition deref (l : nat) : M value :=
  fun w =>
    match w_heap w !! l with
    | Some v => (Ok v, w)
    | None => (Raise (TypeError "dangling reference"), w)
    end.

Definition assign (l : nat) (v : value) : M unit :=
  modify (fun w => set_heap (<[l := v]> (w_heap w)) w).

(** One turn of the loop of [update]. *)
Definition update_step (self : nat) (kv : string * value) : M unit :=
  let (k, v) := kv in
  do obj <- deref self;
  do names <- lift (annotations_keys obj);
  do cls <- lift (class_name obj);
  run (if negb (string_in k names)
       then logger_warning (update_warning cls k)
       else ret tt);
  do obj' <- lift (setattr ct obj k v);
  assign self obj'.

(** [Config.update]: [self] and [d] are the addresses of the instance
    and of the caller's dictionary, [kwargs] is the dictionary that the
    call bound to the keyword arguments. *)
Definition Config_update (self d : nat) (kwargs : list (string * value)) : M nat :=
  do dv <- deref d;
  match dv with
  | VDict items =>
      run assign d (VDict (Dict.update items kwargs));
      run for_each (Dict.update items kwargs) (update_step self);
      ret self
  | _ => raise (AttributeError "object has no attribute 'update'")
  end.

(** [Config.from_dict]: [kwargs] are merged into [dict_config], then the
    class is called with the items whose key is an attribute of the
    class. *)
Definition Config_from_dict (cls : string) (dict_config kwargs : list (string * value))
  : result value :=
  let dict_config := Dict.update dict_config kwargs in
  construct ct cls (Dict.filter_items (fun k _ => hasattr ct cls k) dict_config).

(** [x or default] on an optional string. *)
Definition or_else (x : option string) (default : string) : string :=
  match x with
  | Some s => if String.eqb s "" then default else s
  | None => default
  end.

(** [huggingface_hub.hf_hub_download]: the call is recorded; a file
    that the Hub serves is stored under the cache directory and its
    local path returned. *)
Definition hf_hub_download (repo_id filename subfolder cache_dir : string)
    (repo_type : option string) : M string :=
  run modify (add_download
                {| dl_repo_id := repo_id; dl_filename := filename;
                   dl_subfolder := subfolder; dl_cache_dir := cache_dir;
                   dl_repo_type := repo_type |});
  do hub <- gets w_hub;
  match List.find (fun f => String.eqb (rf_repo_id f) repo_id
                            && String.eqb (rf_subfolder f) subfolder
                            && String.eqb (rf_filename f) filename) hub with
  | None => raise (HubDownloadError repo_id filename)
  | Some f =>
      let dir := Path.join3 cache_dir repo_id subfolder in
      do fs <- gets w_fs;
      do fs1 <- lift (FS.makedirs fs dir true);
      do fs2 <- lift (FS.write fs1 (Path.join dir filename) (rf_document f));
      run modify (set_fs fs2);
      ret (Path.join dir filename)
  end.

Definition getitem (d : list (string * value)) (k : string) : result value :=
  match Dict.get k d with
  | Some v => Ok v
  | None => Raise (KeyError k)
  end.

(** [Config.load] *)
Definition Config_load (hub_or_local_path : string) (filename subfolder : option string)
    (repo_type : option string) (kwargs : list (string * value)) : M value :=
  let filename := or_else filename DEFAULT_MODEL_CONFIG_FILE in
  let subfolder := or_else subfolder "" in
  let config_path := Path.join3 hub_or_local_path subfolder filename in
  do fs <- gets w_fs;
  let is_local := FS.isfile fs config_path in
  if FS.isdir fs hub_or_local_path && negb is_local then
    raise (EnvironmentError
             ("Path `" ++ hub_or_local_path ++ "` exists locally but the config file "
              ++ filename ++ " is missing!"))
  else
    do config_path <-
      (if negb is_local
       then hf_hub_download hub_or_local_path filename subfolder HEZAR_CACHE_DIR repo_type
       else ret config_path);
    do fs <- gets w_fs;
    do config <- lift (FS.read fs config_path);
    do name <- lift (getitem config "name");
    do config_type <- lift (getitem config "config_type");
    do config_cls <- lift (get_module_config_class name config_type);
    if Dict.mem "strict" kwargs || Dict.mem "cls" kwargs || Dict.mem "dict_config" kwargs then
      raise (TypeError "from_dict() got multiple values for an argument")
    else
      lift (Config_from_dict config_cls config (("strict", VBool false) :: kwargs)).

Definition is_None (v : value) : bool :=
  match v with VNone => true | _ => false end.

(** [Config.save] *)
Definition Config_save (self : value) (save_dir filename : string)
    (subfolder : option string) : M string :=
  let subfolder := or_else subfolder "" in
  do config <- lift (Config_dict self);
  let config := Dict.filter_items (fun _ v => negb (is_None v)) config in
  do fs <- gets w_fs;
  do fs1 <- lift (FS.makedirs fs (Path.join save_dir subfolder) true);
  run modify (set_fs fs1);
  let save_path := Path.join3 save_dir subfolder filename in
  do fs2 <- lift (FS.write fs1 save_path config);
  run modify (set_fs fs2);
  ret save_path.

End Program.

(** ** The container methods of [Config], [get] and [push_to_hub] *)

Section Container.
Variable snake_case : string -> string.
Variable ct : gmap string klass.




(** [Config.get]: [getattr(self, key, default)] turns an
    [AttributeError], and no other exception, into [default]. *)
Definition Config_get (self : value) (key : string) (default : value) : M value :=
  fun w =>
    match getattr snake_case ct self key w with
    | (Raise (AttributeError _), w') => (Ok default, w')
    | out => out
    end.

End Container.

(** The calls that [push_to_hub] makes to [huggingface_hub], and the
    messages of [logger.info]. *)
Record create_repo_call : Type := CreateRepo {
  cr_repo_id : string;
  cr_repo_type : option string;
  cr_private : option bool;
  cr_exist_ok : bool
}.

Record upload_file_call : Type := UploadFile {
  up_path_or_fileobj : string;
  up_path_in_repo : string;
  up_repo_id : string;
  up_repo_type : option string;
  up_commit_message : string
}.

Record hub_log : Type := HubLog {
  h_repos : list create_repo_call;     (* calls of create_repo, oldest first *)
  h_uploads : list upload_file_call;   (* calls of upload_file, oldest first *)
  h_info : list string                 (* messages of logger.info, oldest first *)
}.

Definition empty_hub_log : hub_log := {| h_repos := []; h_uploads := []; h_info := [] |}.

Definition add_repo (c : create_repo_call) (h : hub_log) : hub_log :=
  {| h_repos := h_repos h ++ [c]; h_uploads := h_uploads h; h_info := h_info h |}.

Definition add_upload (c : upload_file_call) (h : hub_log) : hub_log :=
  {| h_repos := h_repos h; h_uploads := h_uploads h ++ [c]; h_info := h_info h |}.

Definition add_info (msg : string) (h : hub_log) : hub_log :=
  {| h_repos := h_repos h; h_uploads := h_uploads h; h_info := h_info h ++ [msg] |}.

(** A method that also talks to the Hub. *)
Definition MH (A : Type) : Type := world * hub_log -> result A * (world * hub_log).

Definition bindH {A B} (m : MH A) (k : A -> MH B) : MH B :=
  fun s =>
    match m s with
    | (Ok a, s') => k a s'
    | (Raise e, s') => (Raise e, s')
    end.

Definition retH {A} (a : A) : MH A := fun s => (Ok a, s).

(** A method of [M] run on the first component. *)
Definition in_world {A} (m : M A) : MH A :=
  fun s => match m (fst s) with (r, w') => (r, (w', snd s)) end.

Definition on_hub (f : hub_log -> hub_log) : MH unit :=
  fun s => (Ok tt, (fst s, f (snd s))).

Notation "'doH' x <- c1 ; c2" := (bindH c1 (fun x => c2))
  (at level 10, x name, c1 at level 100, c2 at level 200).
Notation "'runH' c1 ; c2" := (bindH c1 (fun _ => c2))
  (at level 10, c1 at level 100, c2 at level 200).

Section PushToHub.
Variable snake_case : string -> string.
Variable ct : gmap string klass.

(** [tempfile.mkdtemp()], which belongs to the operating system: from a
    file system it gives the path of the directory it made and the file
    system with that directory, or fails. *)
Variable mkdtemp : FS.t -> result (string * FS.t).

(** [str(v)], as an f-string formats a value. *)
Variable str_of : value -> string.

(** [Config.push_to_hub] *)
Definition Config_push_to_hub (self : value) (repo_id filename : string)
    (subfolder repo_type : option string) (private : option bool)
    (commit_message : option string) : MH unit :=
  let path_in_repo :=
    match subfolder with
    | Some s => if String.eqb s "" then filename else s ++ "/" ++ filename
    | None => filename
    end in
  let subfolder := or_else subfolder "" in
  runH on_hub (add_repo {| cr_repo_id := repo_id; cr_repo_type := repo_type;
                           cr_private := private; cr_exist_ok := true |});
  doH cache_path <-
    in_world (do fs <- gets w_fs;
              do made <- lift (mkdtemp fs);
              run modify (set_fs (snd made));
              ret (fst made));
  doH config_path <- in_world (Config_save ct self cache_path filename (Some subfolder));
  let commit_message :=
    match commit_message with
    | None => "Hezar: Upload " ++ filename
    | Some m => m
    end in
  runH on_hub (add_upload {| up_path_or_fileobj := config_path;
                             up_path_in_repo := path_in_repo;
                             up_repo_id := repo_id;
                             up_repo_type := repo_type;
                             up_commit_message := commit_message |});
  doH cls <- in_world (lift (class_name self));
  doH name <- in_world (getattr snake_case ct self "name");
  on_hub (add_info ("Uploaded:`" ++ cls ++ "(name=" ++ str_of name ++ ")` --> `"
                    ++ Path.join3 repo_id subfolder filename ++ "`")).

End PushToHub.

(** ** Shapes of values *)

(** A value that holds no dataclass instance, at any depth. *)
Fixpoint plain (v : value) : bool :=
  match v with
  | VInst _ _ => false
  | VList xs => forallb plain xs
  | VDict items => forallb (fun kv => plain (snd kv)) items
  | _ => true
  end.


(** A name that [setattr] stores in the [__dict__] of an instance of
    [cls]: no property of the classes, and none of the three names that
    [object] and the layout serve unless the classes define it. *)
Definition settable (ct : gmap string klass) (cls k : string) : bool :=
  match type_lookup ct cls k with
  | Some (VProperty _) => false
  | Some _ => true
  | None => negb (string_in k slot_attrs)
  end.

(** A field of [cls] that the class can be built with and without: it has
    a default, the class answers [hasattr] for it, and [setattr] stores
    it. *)
Definition defaulted_field (ct : gmap string klass) (cls : string)
    (f : string * option value) : bool :=
  match snd f with Some _ => true | None => false end
  && hasattr ct cls (fst f) && settable ct cls (fst f).

(** Two instances that the generated [__eq__] finds equal: same class,
    same value in every field. *)
Definition same_fields (ct : gmap string klass) (a b : value) : Prop :=
  match a, b with
  | VInst ca attrs_a, VInst cb attrs_b =>
      ca = cb /\ Forall (fun f => Dict.get f attrs_a = Dict.get f attrs_b) (field_names ct ca)
  | _, _ => False
  end.

(** ** Example programs *)

(** Modelled from the spec: a [snake_case] to run the examples with
    ([hezar/utils/common_utils.py] is not embedded here);
    the specification asks for a lower-snake-case identifier.  An upper
    case letter that follows a lower case letter or a digit starts a new
    word. *)
Fixpoint snake_words (prev_lower : bool) (s : string) : string :=
  match s with
  | EmptyString => EmptyString
  | String c s' =>
      let rest := String (Str.lower_char c) (snake_words (negb (Str.is_upper c)) s') in
      if Str.is_upper c && prev_lower then String "_" rest else rest
  end.

Definition snake_case_model (s : string) : string := snake_words false s.

(** The config class of the module docstring of [configs.py], written by
    a user of the library as
    [class BertLMConfig(ModelConfig): vocab_size: int = 30000;
    hidden_size: int = 768]. *)
Definition BertLMConfig : klass :=
  dataclass "BertLMConfig" ModelConfig
    (Some ["vocab_size"; "hidden_size"])
    [ ("vocab_size", VInt 30000); ("hidden_size", VInt 768) ].

(** A config class that stores its two discriminators as fields, so that
    [save] writes them:
    [class GPT2Config(ModelConfig): name: str = "gpt2";
    config_type: str = "model"; vocab_size: int = 50257]. *)
Definition GPT2Config : klass :=
  dataclass "GPT2Config" ModelConfig
    (Some ["name"; "config_type"; "vocab_size"])
    [ ("name", VStr "gpt2"); ("config_type", VStr "model"); ("vocab_size", VInt 50257) ].

(** A trainer config with a field of its own:
    [class MyTrainerConfig(TrainerConfig): patience: int = 3]. *)
Definition MyTrainerConfig : klass :=
  dataclass "MyTrainerConfig" TrainerConfig (Some ["patience"]) [ ("patience", VInt 3) ].

Definition user_classes : gmap string klass :=
  foldr add_class hezar_classes [ BertLMConfig; GPT2Config; MyTrainerConfig ].

Definition user_registry : list (string * string * string) :=
  [ ("bpe_tokenizer", "preprocessor", "BPEConfig");
    ("gpt2", "model", "GPT2Config") ].

(** A list of keys without repetition: the keys of a [dict]. *)
Fixpoint distinct (l : list string) : bool :=
  match l with
  | [] => true
  | k :: l' => negb (string_in k l') && distinct l'
  end.


(** A key that [update] can assign on an instance of [cls] without
    disturbing the lookup of [__annotations__]. *)
Definition assignable (ct : gmap string klass) (cls k : string) : bool :=
  settable ct cls k && negb (String.eqb k "__annotations__").

(** A heap holding an instance at address 0 and a dictionary at
    address 1. *)
Definition update_world (c : value) (d : list (string * value)) : world :=
  set_heap (<[1%nat := VDict d]> (<[0%nat := c]> ∅)) empty_world.

(** [TrainerConfig()] *)
Definition trainer_config : value :=
  Eval vm_compute in
    match construct user_classes "TrainerConfig" [] with
    | Ok c => c
    | Raise _ => VNone
    end.

(** The value that [__init__] binds to a field: the keyword argument if
    there is one, else the default. *)
Definition bound_value (kwargs : list (string * value)) (f : string * option value)
  : option value :=
  match Dict.get (fst f) kwargs with
  | Some v => Some v
  | None => snd f
  end.

Definition is_bound (kwargs : list (string * value)) (f : string * option value) : bool :=
  match bound_value kwargs f with Some _ => true | None => false end.

Definition bound_of (fs : list (string * option value)) (kwargs : list (string * value))
  : list (string * value) :=
  map (fun f => (fst f, match bound_value kwargs f with Some v => v | None => VNone end)) fs.

(** [LRSchedulerConfig()] and
    [OptimizerConfig(lr=0.5, scheduler=LRSchedulerConfig())]: a config
    that holds a config, no field of either being [None]. *)
Definition scheduler_config : value :=
  Eval vm_compute in
    match construct hezar_classes "LRSchedulerConfig" [] with
    | Ok c => c
    | Raise _ => VNone
    end.

Definition optimizer_config : value :=
  Eval vm_compute in
    match construct hezar_classes "OptimizerConfig"
            [("lr", VFloat 0.5%float); ("scheduler", scheduler_config)] with
    | Ok c => c
    | Raise _ => VNone
    end.

(** [GPT2Config(vocab_size=None)]: the field [vocab_size] is set to
    [None] explicitly, its declared default is 50257. *)
Definition gpt2_config : value :=
  Eval vm_compute in
    match construct user_classes "GPT2Config" [("vocab_size", VNone)] with
    | Ok c => c
    | Raise _ => VNone
    end.

(** [CriterionConfig(ignore_index=None)], the declared default of
    [ignore_index] being -100. *)
Definition criterion_config : value :=
  Eval vm_compute in
    match construct hezar_classes "CriterionConfig" [("ignore_index", VNone)] with
    | Ok c => c
    | Raise _ => VNone
    end.

(** Stand-ins for the two constants of [hezar/constants.py] in the
    examples. *)
Definition example_config_file : string := "model_config.yaml".
Definition example_cache_dir : string := "/root/.cache/hezar".

(** A file system whose only directory is "saved/bert", empty. *)
Definition local_dir_world : world :=
  Eval vm_compute in
    match FS.makedirs FS.empty "saved/bert" true with
    | Ok fs => set_fs fs empty_world
    | Raise _ => empty_world
    end.

(** The state after [gpt2_config.save("saved/gpt2", "model_config.yaml")]
    and after [criterion_config.save("saved/criterion", "criterion.yaml")],
    each from the empty state. *)
Definition gpt2_saved_world : world :=
  snd (Config_save user_classes gpt2_config "saved/gpt2" "model_config.yaml" None empty_world).

Definition criterion_saved_world : world :=
  snd (Config_save hezar_classes criterion_config "saved/criterion" "criterion.yaml" None
         empty_world).

(** [BertLMConfig(vocab_size=50000, hidden_size=768)] as a value. *)
Definition bert_config_value : value :=
  Eval vm_compute in
    match construct user_classes "BertLMConfig"
            [("vocab_size", VInt 50000); ("hidden_size", VInt 768)] with
    | Ok c => c
    | Raise _ => VNone
    end.

(** The identifier that [Config.name] derives from a class name. *)
Definition class_identifier (snake_case : string -> string) (cls : string) : string :=
  let name := snake_case (Str.replace "Config" "" cls) in
  if String.eqb name "" then "base" else name.

(** The classes that [configs.py] defines. *)
Definition configs_class_names : list string :=
  [ "Config"; "ModelConfig"; "PreprocessorConfig"; "DatasetConfig"; "EmbeddingConfig";
    "CriterionConfig"; "LRSchedulerConfig"; "OptimizerConfig"; "MetricConfig";
    "TrainerConfig" ].

(** [cls.name] is the property that [Config] defines. *)
Definition name_is_Config_property (ct : gmap string klass) (cls : string) : bool :=
  match type_lookup ct cls "name" with
  | Some (VProperty getter) => String.eqb getter "name"
  | _ => false
  end.

(** The file system after [os.makedirs("saved/trainer/run1")] from the
    empty one, and after [trainer_config] is written there. *)
Definition trainer_items : list (string * value) :=
  Eval vm_compute in
    match Config_dict hezar_classes trainer_config with
    | Ok items => items
    | Raise _ => []
    end.

Definition run1_directory : FS.t :=
  Eval vm_compute in
    match FS.makedirs FS.empty "saved/trainer/run1" true with
    | Ok fs => fs
    | Raise _ => FS.empty
    end.

Definition run1_saved : FS.t :=
  Eval vm_compute in
    match FS.write run1_directory "saved/trainer/run1/train_config.yaml"
            (Dict.filter_items (fun _ v => negb (is_None v)) trainer_items) with
    | Ok fs => fs
    | Raise _ => FS.empty
    end.

(** Two more classes of a user: one written on the base class directly,
    [class ExperimentConfig(Config): seed: int = 0], and one whose field
    has no default, [class VocabConfig(ModelConfig): vocab_size: int]. *)
Definition ExperimentConfig : klass :=
  dataclass "ExperimentConfig" Config (Some ["seed"]) [ ("seed", VInt 0) ].

Definition VocabConfig : klass :=
  dataclass "VocabConfig" ModelConfig (Some ["vocab_size"]) [].

Definition experiment_classes : gmap string klass :=
  foldr add_class user_classes [ ExperimentConfig; VocabConfig ].

(** [MyTrainerConfig()] *)
Definition my_trainer_config : value :=
  Eval vm_compute in
    match construct user_classes "MyTrainerConfig" [] with
    | Ok c => c
    | Raise _ => VNone
    end.

(** The fields of a value that is an instance. *)
Definition fields_of (c : value) : list (string * value) :=
  match c with
  | VInst _ attrs => attrs
  | _ => []
  end.

(** [optimizer_config.dict()] *)
Definition optimizer_items : list (string * value) :=
  Eval vm_compute in
    match Config_dict hezar_classes optimizer_config with
    | Ok items => items
    | Raise _ => []
    end.


(** What [gpt2_config.save] wrote to "saved/gpt2/model_config.yaml". *)
Definition gpt2_saved_document : list (string * value) :=
  [ ("name", VStr "gpt2"); ("config_type", VStr "model") ].

(** The file system after [os.makedirs("saved/trainer")] from the empty
    one. *)
Definition trainer_directory : FS.t :=
  Eval vm_compute in
    match FS.makedirs FS.empty "saved/trainer" true with
    | Ok fs => fs
    | Raise _ => FS.empty
    end.

(** A registry that knows [TrainerConfig] under the name that the class
    derives for itself, and a file written by hand for it, with the two
    discriminators, in "saved/trainer". *)
Definition trainer_registry : list (string * string * string) :=
  [ ("trainer", "trainer", "TrainerConfig") ].

Definition trainer_document : list (string * value) :=
  [ ("name", VStr "trainer"); ("config_type", VStr "trainer"); ("seed", VInt 7) ].

Definition trainer_file_world : world :=
  Eval vm_compute in
    match FS.write trainer_directory "saved/trainer/train_config.yaml" trainer_document with
    | Ok fs => set_fs fs empty_world
    | Raise _ => empty_world
    end.

(** A [tempfile.mkdtemp] that always makes the same directory, and a
    [str] for the values that are strings. *)
Definition example_mkdtemp (fs : FS.t) : result (string * FS.t) :=
  rbind (FS.makedirs fs "/tmp/tmp8x2k" true) (fun fs' => Ok ("/tmp/tmp8x2k", fs')).

Definition example_str (v : value) : string :=
  match v with
  | VStr s => s
  | _ => ""
  end.

(** Unfolding of the plumbing of [M]. *)
Ltac monad_unfold :=
  unfold bind, lift, ret, raise, gets, modify, logger_warning, deref, assign in *.

(** * Properties *)

(** ** Facts about dicts *)

Module DictFacts.
Section Facts.
Context {V : Type}.
Implicit Types (d other : list (string * V)) (k : string) (v : V).

Lemma get_set_eq k v d : Dict.get k (Dict.set k v d) = Some v.
Proof.
  induction d as [|[k' v'] d IH]; simpl.
  - now rewrite String.eqb_refl.
  - destruct (String.eqb k k') eqn:E; simpl; rewrite E; auto.
Qed.

Lemma get_set_ne k k' v d : k <> k' -> Dict.get k' (Dict.set k v d) = Dict.get k' d.
Proof.
  intros Hne. induction d as [|[k0 v0] d IH]; simpl.
  - destruct (String.eqb k' k) eqn:E; auto.
    apply String.eqb_eq in E. congruence.
  - destruct (String.eqb k k0) eqn:E; simpl.
    + apply String.eqb_eq in E. subst k0.
      destruct (String.eqb k' k) eqn:E'; auto.
      apply String.eqb_eq in E'. congruence.
    + now rewrite IH.
Qed.

Lemma get_set k k' v d :
  Dict.get k' (Dict.set k v d) = if String.eqb k' k then Some v else Dict.get k' d.
Proof.
  destruct (String.eqb k' k) eqn:E.
  - apply String.eqb_eq in E. subst. apply get_set_eq.
  - apply String.eqb_neq in E. apply get_set_ne. congruence.
Qed.

Lemma get_None_keys k d : Dict.get k d = None <-> ~ In k (Dict.keys d).
Proof.
  induction d as [|[k' v'] d IH]; simpl.
  - tauto.
  - destruct (String.eqb k k') eqn:E.
    + apply String.eqb_eq in E. subst. split; [discriminate | tauto].
    + apply String.eqb_neq in E. rewrite IH. intuition congruence.
Qed.

Lemma get_Some_In k v d : Dict.get k d = Some v -> In (k, v) d.
Proof.
  induction d as [|[k' v'] d IH]; simpl; [discriminate|].
  destruct (String.eqb k k') eqn:E.
  - apply String.eqb_eq in E. intros [= ->]. subst. now left.
  - auto.
Qed.

Lemma In_get_NoDup k v d : List.NoDup (Dict.keys d) -> In (k, v) d -> Dict.get k d = Some v.
Proof.
  induction d as [|[k' v'] d IH]; simpl; [tauto|].
  intros Hnd [H|H].
  - injection H as -> ->. now rewrite String.eqb_refl.
  - apply List.NoDup_cons_iff in Hnd as [Hnotin Hnd].
    destruct (String.eqb k k') eqn:E; auto.
    apply String.eqb_eq in E. subst k'.
    exfalso. apply Hnotin. change k with (fst (k, v)). now apply in_map.
Qed.

Lemma mem_true k d : Dict.mem k d = true <-> In k (Dict.keys d).
Proof.
  unfold Dict.mem. destruct (Dict.get k d) eqn:E.
  - split; auto. intros _. apply get_Some_In in E.
    change k with (fst (k, v)). now apply in_map.
  - split; [discriminate|]. intros H. now apply get_None_keys in E.
Qed.

Lemma mem_false k d : Dict.mem k d = false <-> ~ In k (Dict.keys d).
Proof.
  rewrite <- mem_true. destruct (Dict.mem k d); intuition congruence.
Qed.

Lemma keys_set k v d :
  Dict.keys (Dict.set k v d) = if Dict.mem k d then Dict.keys d else (Dict.keys d ++ [k])%list.
Proof.
  unfold Dict.mem. induction d as [|[k' v'] d IH]; simpl; auto.
  destruct (String.eqb k k') eqn:E; simpl; auto.
  rewrite IH. now destruct (Dict.get k d).
Qed.

Lemma set_absent k v d : Dict.get k d = None -> Dict.set k v d = (d ++ [(k, v)])%list.
Proof.
  induction d as [|[k' v'] d IH]; simpl; auto.
  destruct (String.eqb k k'); [discriminate|].
  intros H. now rewrite IH.
Qed.

Lemma NoDup_set k v d : List.NoDup (Dict.keys d) -> List.NoDup (Dict.keys (Dict.set k v d)).
Proof.
  intros Hnd. rewrite keys_set. destruct (Dict.mem k d) eqn:E; auto.
  apply mem_false in E.
  clear v. induction (Dict.keys d) as [|x l IH]; simpl.
  - apply List.NoDup_cons; [simpl; tauto | apply List.NoDup_nil].
  - apply List.NoDup_cons_iff in Hnd as [Hx Hl]. simpl in E.
    apply List.NoDup_cons; [|apply IH; tauto].
    rewrite in_app_iff. simpl. intuition congruence.
Qed.

Lemma NoDup_update d other : List.NoDup (Dict.keys d) -> List.NoDup (Dict.keys (Dict.update d other)).
Proof.
  unfold Dict.update. revert d.
  induction other as [|[k v] other IH]; simpl; auto.
  intros d Hnd. apply IH. now apply NoDup_set.
Qed.

Lemma get_update_absent k d other :
  ~ In k (Dict.keys other) -> Dict.get k (Dict.update d other) = Dict.get k d.
Proof.
  unfold Dict.update. revert d.
  induction other as [|[k' v'] other IH]; simpl; auto.
  intros d Hnotin. rewrite IH by tauto.
  apply get_set_ne. intros ->. tauto.
Qed.

Lemma get_update_present k v d other :
  List.NoDup (Dict.keys other) -> Dict.get k other = Some v ->
  Dict.get k (Dict.update d other) = Some v.
Proof.
  unfold Dict.update. revert d.
  induction other as [|[k' v'] other IH]; simpl; [discriminate|].
  intros d Hnd Hget. apply List.NoDup_cons_iff in Hnd as [Hnotin Hnd].
  destruct (String.eqb k k') eqn:E.
  - apply String.eqb_eq in E. subst k'. injection Hget as ->.
    change (fold_left _ other ?x) with (Dict.update x other).
    rewrite get_update_absent by assumption. apply get_set_eq.
  - now apply IH.
Qed.

Lemma update_nil d : Dict.update d [] = d.
Proof. reflexivity. Qed.

Lemma update_cons d k v other :
  Dict.update d ((k, v) :: other) = Dict.update (Dict.set k v d) other.
Proof. reflexivity. Qed.

Lemma keys_filter_items (p : string -> V -> bool) d k :
  In k (Dict.keys (Dict.filter_items p d)) -> In k (Dict.keys d).
Proof.
  unfold Dict.keys, Dict.filter_items. rewrite !in_map_iff.
  intros [x [Hx Hin]]. apply filter_In in Hin as [Hin _]. eauto.
Qed.

Lemma get_filter_key (p : string -> bool) d k :
  Dict.get k (Dict.filter_items (fun k' _ => p k') d)
  = if p k then Dict.get k d else None.
Proof.
  unfold Dict.filter_items.
  induction d as [|[k' v'] d IH]; simpl.
  - now destruct (p k).
  - destruct (p k') eqn:Hp; simpl.
    + destruct (String.eqb k k') eqn:E.
      * apply String.eqb_eq in E. subst. now rewrite Hp.
      * apply IH.
    + rewrite IH. destruct (String.eqb k k') eqn:E; auto.
      apply String.eqb_eq in E. subst. now rewrite Hp.
Qed.

Lemma filter_items_all (p : string -> V -> bool) d :
  (forall k v, In (k, v) d -> p k v = true) -> Dict.filter_items p d = d.
Proof.
  unfold Dict.filter_items. induction d as [|[k v] d IH]; simpl; auto.
  intros H. rewrite (H k v) by now left. simpl. f_equal. apply IH.
  intros k' v' Hin. apply H. now right.
Qed.
End Facts.
End DictFacts.

(** ** Facts about lists of names *)

Lemma string_in_In k l : string_in k l = true <-> In k l.
Proof.
  unfold string_in. rewrite existsb_exists. split.
  - intros [x [Hin Heq]]. apply String.eqb_eq in Heq. now subst.
  - intros Hin. exists k. split; [assumption | apply String.eqb_refl].
Qed.

Lemma distinct_NoDup l : distinct l = true -> List.NoDup l.
Proof.
  induction l as [|k l IH]; cbn; [constructor|].
  intros H. apply andb_prop in H as [Hk Hl].
  constructor; [|auto].
  intros Hin. apply string_in_In in Hin. rewrite Hin in Hk. discriminate.
Qed.


(** ** Running the methods *)

Lemma bind_Ok {A B} (m : M A) (k : A -> M B) w a w' :
  m w = (Ok a, w') -> bind m k w = k a w'.
Proof. intros H. unfold bind. now rewrite H. Qed.

Lemma bind_Raise {A B} (m : M A) (k : A -> M B) w e w' :
  m w = (Raise e, w') -> bind m k w = (Raise e, w').
Proof. intros H. unfold bind. now rewrite H. Qed.

(** ** [config_type] *)

Section ConfigType.
Variable ct : gmap string klass.

(** A class that extends a category class other than [Config], and is
    not itself a key of [CONFIG_TYPES_MAPPING], has no [config_type]:
    the second lookup of the method is by the class's own name. *)
Lemma config_type_of_category_subclass cls parent rest t attrs w :
  mro_of ct cls = cls :: parent :: rest ->
  Dict.get parent CONFIG_TYPES_MAPPING = Some t ->
  ConfigType_eqb t BASE = false ->
  Dict.get cls CONFIG_TYPES_MAPPING = None ->
  Config_config_type ct (VInst cls attrs) w = (Raise (KeyError cls), w).
Proof.
  intros Hmro Hparent Hbase Hcls.
  unfold Config_config_type. monad_unfold. cbn.
  rewrite Hmro. cbn. rewrite Hparent, Hbase. cbn. now rewrite Hcls.
Qed.

(** A class that extends [Config] itself and is not a key of
    [CONFIG_TYPES_MAPPING] gets its own lower-cased name, with a
    warning. *)
Lemma config_type_of_custom_class cls rest attrs w :
  mro_of ct cls = cls :: "Config" :: rest ->
  Dict.get cls CONFIG_TYPES_MAPPING = None ->
  exists msg,
    Config_config_type ct (VInst cls attrs) w
    = (Ok (Str.lower (Str.replace "Config" "" cls)), add_log msg w).
Proof.
  intros Hmro Hcls.
  unfold Config_config_type. monad_unfold. cbn.
  rewrite Hmro. cbn. unfold Dict.mem. rewrite Hcls. cbn. eauto.
Qed.
End ConfigType.

(** C1 (the code departs from the claim).  The claim: two config types
    that extend the same category class report the same [config_type].
    On the code, reading [config_type] on an instance of [BertLMConfig],
    which extends [ModelConfig], raises [KeyError]: no category is
    reported, while the category class [ModelConfig] itself reports
    "model". *)
Theorem config_type_of_BertLMConfig_raises :
  construct user_classes "BertLMConfig" [("vocab_size", VInt 50000); ("hidden_size", VInt 768)]
  = Ok bert_config_value
  /\ Config_config_type user_classes bert_config_value empty_world
     = (Raise (KeyError "BertLMConfig"), empty_world)
  /\ Config_config_type user_classes (VInst "ModelConfig" []) empty_world
     = (Ok "model", empty_world).
Proof. repeat split; vm_compute; reflexivity. Qed.

(** ** [load]: a local directory is never looked up on the Hub *)

Section Load.
Variables DEFAULT_MODEL_CONFIG_FILE HEZAR_CACHE_DIR : string.
Variable ct : gmap string klass.
Variable registry : list (string * string * string).


(** What [load] does once it holds the path of a local file leaves the
    state as it is. *)
Lemma load_local_file_keeps_state w path filename subfolder repo_type kwargs :
  FS.isfile (w_fs w)
    (Path.join3 path (or_else subfolder "") (or_else filename DEFAULT_MODEL_CONFIG_FILE)) = true ->
  snd (Config_load DEFAULT_MODEL_CONFIG_FILE HEZAR_CACHE_DIR ct registry
         path filename subfolder repo_type kwargs w) = w.
Proof.
  intros Hfile. unfold Config_load. monad_unfold. cbn.
  rewrite Hfile. rewrite andb_false_r. cbn.
  repeat match goal with
         | |- context [match ?x with _ => _ end] => destruct x; cbn; try reflexivity
         end.
Qed.

(** C3.  When the location is a local directory and the file composed
    from location, subfolder and filename does not exist, [load] raises
    [EnvironmentError] and leaves the state untouched: no download is
    recorded.  And whenever [load] records a download, the location was
    not a local directory. *)
Theorem load_local_directory_never_fetched w path filename subfolder repo_type kwargs :
  let expected :=
    Path.join3 path (or_else subfolder "") (or_else filename DEFAULT_MODEL_CONFIG_FILE) in
  let out := Config_load DEFAULT_MODEL_CONFIG_FILE HEZAR_CACHE_DIR ct registry
               path filename subfolder repo_type kwargs w in
  (FS.isdir (w_fs w) path = true ->
   FS.isfile (w_fs w) expected = false ->
   out = (Raise (EnvironmentError
                   ("Path `" ++ path ++ "` exists locally but the config file "
                    ++ or_else filename DEFAULT_MODEL_CONFIG_FILE ++ " is missing!")), w)
   /\ w_downloads (snd out) = w_downloads w)
  /\ (w_downloads (snd out) <> w_downloads w -> FS.isdir (w_fs w) path = false).
Proof.
  intros expected out. split.
  - intros Hdir Hfile.
    assert (Hout : out = (Raise (EnvironmentError
                   ("Path `" ++ path ++ "` exists locally but the config file "
                    ++ or_else filename DEFAULT_MODEL_CONFIG_FILE ++ " is missing!")), w)).
    { unfold out, Config_load. monad_unfold. cbn.
      fold expected. now rewrite Hdir, Hfile. }
    split; [exact Hout | now rewrite Hout].
  - intros Hchanged.
    destruct (FS.isdir (w_fs w) path) eqn:Hdir; [exfalso | reflexivity].
    apply Hchanged.
    destruct (FS.isfile (w_fs w) expected) eqn:Hfile.
    + unfold out. now rewrite load_local_file_keeps_state.
    + unfold out, Config_load. monad_unfold. cbn.
      fold expected. now rewrite Hdir, Hfile.
Qed.

End Load.


(** ** [update] *)

Section Update.
Variable ct : gmap string klass.
#[local] Arguments setattr : simpl never.

(** The loop of [update] writes to the address of [self] only, and only
    an instance: the caller's dictionary stays what the first statement
    made it. *)
Lemma update_step_keeps_dict self d m kv w :
  w_heap w !! d = Some (VDict m) ->
  w_heap (snd (update_step ct self kv w)) !! d = Some (VDict m).
Proof.
  intros Hd. unfold update_step. destruct kv as [k v]. monad_unfold.
  destruct (w_heap w !! self) as [obj|] eqn:Hself; cbn; [|assumption].
  destruct (annotations_keys ct obj) as [names|e]; cbn; [|assumption].
  destruct (class_name obj) as [cls|e]; cbn; [|assumption].
  destruct (decide (self = d)) as [->|Hne].
  - rewrite Hd in Hself. injection Hself as <-. cbn.
    now destruct (negb (string_in k names)).
  - destruct (negb (string_in k names)); cbn;
      (destruct (setattr ct obj k v); cbn; [rewrite lookup_insert_ne by assumption|]; assumption).
Qed.

Lemma for_each_keeps_dict self d m l w :
  w_heap w !! d = Some (VDict m) ->
  w_heap (snd (for_each l (update_step ct self) w)) !! d = Some (VDict m).
Proof.
  revert w. induction l as [|kv l IH]; intros w Hd; cbn; [assumption|].
  unfold bind.
  pose proof (update_step_keeps_dict self d m kv w Hd) as Hstep.
  destruct (update_step ct self kv w) as [[[]|e] w1]; cbn in *; auto.
Qed.

(** C10.  [update(d, k1=v1, ...)] writes the keyword arguments into the
    caller's dictionary: whatever else the call does, and even when it
    raises, the object at the address of [d] afterwards is [d] merged with
    the keyword arguments, every keyword argument being in it with its
    value and every other key keeping the value it had. *)
Theorem update_merges_kwargs_into_callers_dict w self d items kwargs :
  w_heap w !! d = Some (VDict items) ->
  distinct (Dict.keys kwargs) = true ->
  let w' := snd (Config_update ct self d kwargs w) in
  w_heap w' !! d = Some (VDict (Dict.update items kwargs))
  /\ (forall k v, Dict.get k kwargs = Some v ->
                  Dict.get k (Dict.update items kwargs) = Some v)
  /\ (forall k, Dict.mem k kwargs = false ->
                Dict.get k (Dict.update items kwargs) = Dict.get k items).
Proof.
  intros Hd Hnodup w'. split; [|split].
  - unfold w', Config_update. monad_unfold. rewrite Hd. cbn.
    set (w1 := set_heap _ w).
    assert (H1 : w_heap w1 !! d = Some (VDict (Dict.update items kwargs)))
      by (unfold w1; cbn; apply lookup_insert_eq).
    pose proof (for_each_keeps_dict self d _ (Dict.update items kwargs) w1 H1) as Hloop.
    destruct (for_each _ _ w1) as [[[]|e] w2]; cbn in *; assumption.
  - intros k v Hk. apply DictFacts.get_update_present; [|assumption].
    now apply distinct_NoDup.
  - intros k Hk. apply DictFacts.get_update_absent. now apply DictFacts.mem_false.
Qed.

Lemma setattr_settable cls attrs k v :
  settable ct cls k = true ->
  setattr ct (VInst cls attrs) k v = Ok (VInst cls (Dict.set k v attrs)).
Proof.
  unfold settable, setattr, slot_attrs, string_in. cbn [existsb].
  destruct (type_lookup ct cls k) as [[]|]; try congruence.
  destruct (String.eqb k "__class__"), (String.eqb k "__dict__"),
    (String.eqb k "__weakref__"); cbn; congruence.
Qed.

(** The loop of [update] on an instance whose class resolves
    [__annotations__] to [names], for keys that [setattr] stores: every
    item is assigned in turn, and the keys outside [names] are warned
    about, in turn. *)
Lemma update_loop self cls names l : forall attrs w,
  w_heap w !! self = Some (VInst cls attrs) ->
  Dict.get "__annotations__" attrs = None ->
  mro_annotations ct (mro_of ct cls) = Some names ->
  (forall k, In k (Dict.keys l) -> settable ct cls k = true /\ k <> "__annotations__") ->
  exists w',
    for_each l (update_step ct self) w = (Ok tt, w')
    /\ w_heap w' = <[self := VInst cls (Dict.update attrs l)]> (w_heap w)
    /\ w_log w' = (w_log w ++ map (update_warning cls)
                     (List.filter (fun k => negb (string_in k names)) (Dict.keys l)))%list
    /\ w_fs w' = w_fs w /\ w_hub w' = w_hub w /\ w_downloads w' = w_downloads w.
Proof.
  induction l as [|[k v] l IH]; intros attrs w Hself Hann Hnames Hkeys.
  - exists w. cbn. rewrite app_nil_r, insert_id by assumption. repeat split.
  - destruct (Hkeys k (or_introl eq_refl)) as [Hset Hk].
    assert (Hget : Dict.get "__annotations__" (Dict.set k v attrs) = None)
      by (rewrite DictFacts.get_set_ne; assumption).
    cbn [for_each]. unfold bind at 1.
    set (msgs := if negb (string_in k names) then [update_warning cls k] else []).
    set (w1 := {| w_heap := <[self := VInst cls (Dict.set k v attrs)]> (w_heap w);
                  w_fs := w_fs w; w_hub := w_hub w; w_downloads := w_downloads w;
                  w_log := (w_log w ++ msgs)%list |}).
    assert (Hstep : update_step ct self (k, v) w = (Ok tt, w1)).
    { unfold update_step. monad_unfold. rewrite Hself. cbn.
      rewrite Hann, Hnames. cbn.
      unfold w1, msgs, update_warning, set_heap, add_log.
      destruct (negb (string_in k names)); cbn;
        rewrite (setattr_settable cls attrs k v Hset); cbn; [reflexivity|].
      now rewrite app_nil_r. }
    rewrite Hstep.
    destruct (IH (Dict.set k v attrs) w1) as (w' & Hrun & Hheap & Hlog & Hfs & Hhub & Hdl).
    + unfold w1. cbn. apply lookup_insert_eq.
    + assumption.
    + assumption.
    + intros k' Hin. apply Hkeys. now right.
    + exists w'. split; [exact Hrun|].
      rewrite Hheap, Hlog, Hfs, Hhub, Hdl. unfold w1. cbn.
      rewrite insert_insert_eq. repeat split.
      rewrite <- app_assoc. f_equal. unfold msgs.
      now destruct (negb (string_in k names)).
Qed.


End Update.

Lemma update_merges_kwargs_into_callers_dict_witness :
  let w' := snd (Config_update user_classes 0 1 [("seed", VInt 7); ("device", VStr "cpu")]
                   (update_world trainer_config [("seed", VInt 1); ("batch_size", VInt 8)])) in
  w_heap w' !! 1%nat
  = Some (VDict [("seed", VInt 7); ("batch_size", VInt 8); ("device", VStr "cpu")]).
Proof.
  intros w'.
  exact (proj1 (update_merges_kwargs_into_callers_dict user_classes
                  (update_world trainer_config [("seed", VInt 1); ("batch_size", VInt 8)])
                  0 1 [("seed", VInt 1); ("batch_size", VInt 8)]
                  [("seed", VInt 7); ("device", VStr "cpu")]
                  eq_refl eq_refl)).
Defined.



(** ** Facts about [asdict] *)

Lemma collect_Ok {A} (l : list (string * A)) :
  collect (map (fun ka => (fst ka, Ok (snd ka))) l) = Ok l.
Proof.
  induction l as [|[k a] l IH]; cbn; [reflexivity|].
  cbn in IH. now rewrite IH.
Qed.

Lemma collect_inv {A} (rs : list (string * result A)) l :
  collect rs = Ok l -> rs = map (fun ka => (fst ka, Ok (snd ka))) l.
Proof.
  revert l. induction rs as [|[k r] rs IH]; cbn; intros l H.
  - now injection H as <-.
  - destruct r as [a|e]; cbn in H; [|discriminate].
    destruct (collect rs) as [rest|e]; cbn in H; [|discriminate].
    injection H as <-. cbn. f_equal. now apply IH.
Qed.

Lemma collect_list_Ok {A} (l : list A) : collect_list (map Ok l) = Ok l.
Proof.
  induction l as [|a l IH]; cbn; [reflexivity|]. now rewrite IH.
Qed.

Lemma get_map_values {A B} (g : A -> B) k (d : list (string * A)) :
  Dict.get k (map (fun kv => match kv with (k', x) => (k', g x) end) d)
  = option_map g (Dict.get k d).
Proof.
  induction d as [|[k' x] d IH]; cbn; [reflexivity|].
  now destruct (String.eqb k k').
Qed.

Lemma map_get_keys {A} (d : list (string * A)) :
  List.NoDup (Dict.keys d) ->
  map (fun k => (k, Dict.get k d)) (Dict.keys d) = map (fun kv => (fst kv, Some (snd kv))) d.
Proof.
  induction d as [|[k v] d IH]; cbn; [reflexivity|].
  intros Hnd. apply List.NoDup_cons_iff in Hnd as [Hk Hd].
  rewrite String.eqb_refl. f_equal.
  rewrite <- IH by assumption.
  apply map_ext_in. intros k' Hin.
  destruct (String.eqb k' k) eqn:E; [|reflexivity].
  apply String.eqb_eq in E. subst. contradiction.
Qed.

Section AsDict.
Variable ct : gmap string klass.

(** A value without instances is returned as it is. *)
Lemma asdict_inner_plain v : plain v = true -> asdict_inner ct v = Ok v.
Proof.
  induction v as [| | | | |xs IH|items IH|cls attrs IH| |] using value_nested_ind;
    cbn; intros Hplain; try reflexivity; try discriminate.
  - assert (Hmap : map (asdict_inner ct) xs = map Ok xs).
    { apply map_ext_in. intros x Hin.
      rewrite List.Forall_forall in IH. apply IH; [assumption|].
      rewrite forallb_forall in Hplain. now apply Hplain. }
    now rewrite Hmap, collect_list_Ok.
  - assert (Hmap : map (fun kv => match kv with (k, x) => (k, asdict_inner ct x) end) items
                   = map (fun ka => (fst ka, Ok (snd ka))) items).
    { apply map_ext_in. intros [k x] Hin. cbn. f_equal.
      rewrite List.Forall_forall in IH. apply (IH (k, x)); [assumption|].
      rewrite forallb_forall in Hplain. now apply (Hplain (k, x)). }
    now rewrite Hmap, collect_Ok.
Qed.

(** Only [None] is serialised as [None]. *)
Lemma asdict_inner_None v : asdict_inner ct v = Ok VNone -> v = VNone.
Proof.
  destruct v; cbn; try congruence.
  - destruct (collect_list _); cbn; congruence.
  - destruct (collect _); cbn; congruence.
  - destruct (collect _); cbn; congruence.
Qed.

(** What [asdict] returns for an instance: one item for each field of
    the class, in their order, holding the serialised value that the
    instance has for the field. *)
Lemma asdict_instance cls attrs items :
  asdict ct (VInst cls attrs) = Ok items ->
  Dict.keys items = field_names ct cls
  /\ forall f v, Dict.get f items = Some v ->
                 exists x, Dict.get f attrs = Some x /\ asdict_inner ct x = Ok v.
Proof.
  unfold asdict. cbn.
  set (converted := map _ attrs).
  destruct (collect _) as [l|e] eqn:Hcollect; cbn; [|discriminate].
  intros [= <-]. apply collect_inv in Hcollect.
  split.
  - apply (f_equal (map fst)) in Hcollect. rewrite !map_map in Hcollect.
    unfold Dict.keys.
    transitivity (map (fun f => fst (read_field cls converted f)) (field_names ct cls)).
    + symmetry. exact Hcollect.
    + rewrite <- (map_id (field_names ct cls)) at 2.
      apply map_ext. intros f. unfold read_field. now destruct (Dict.get f converted).
  - intros f v Hget. apply DictFacts.get_Some_In in Hget.
    assert (Hin : In (f, Ok v) (map (read_field cls converted) (field_names ct cls))).
    { rewrite Hcollect. apply in_map_iff. now exists (f, v). }
    apply in_map_iff in Hin as [f' [Hread _]].
    unfold read_field in Hread.
    destruct (Dict.get f' converted) as [r|] eqn:Hconv; [|congruence].
    injection Hread as -> ->.
    unfold converted in Hconv. rewrite get_map_values in Hconv.
    destruct (Dict.get f attrs) as [x|]; [|discriminate].
    injection Hconv as Hx. eauto.
Qed.






(** An instance that holds exactly its fields, none of them an instance,
    is serialised as its own [__dict__]. *)
Lemma asdict_plain_instance cls attrs :
  Dict.keys attrs = field_names ct cls ->
  List.NoDup (field_names ct cls) ->
  forallb (fun kv => plain (snd kv)) attrs = true ->
  asdict ct (VInst cls attrs) = Ok attrs.
Proof.
  intros Hkeys Hnd Hplain. unfold asdict. cbn.
  assert (Hconv : map (fun kv => match kv with (k, x) => (k, asdict_inner ct x) end) attrs
                  = map (fun ka => (fst ka, Ok (snd ka))) attrs).
  { apply map_ext_in. intros [k x] Hin. cbn. f_equal. apply asdict_inner_plain.
    rewrite forallb_forall in Hplain. now apply (Hplain (k, x)). }
  rewrite Hconv. rewrite <- Hkeys in *.
  assert (Hread : map (read_field cls (map (fun ka => (fst ka, Ok (snd ka))) attrs))
                      (Dict.keys attrs)
                  = map (fun ka => (fst ka, Ok (snd ka))) attrs).
  { clear Hconv Hkeys Hplain.
    transitivity (map (fun k => (k, match Dict.get k attrs with
                                    | Some x => Ok x
                                    | None => Raise (AttributeError
                                        ("'" ++ cls ++ "' object has no attribute '" ++ k ++ "'"))
                                    end)) (Dict.keys attrs)).
    - apply map_ext. intros k. unfold read_field.
      replace (map (fun ka : string * value => (fst ka, Ok (snd ka))) attrs)
        with (map (fun kv : string * value => match kv with (k', x) => (k', Ok x) end) attrs)
        by (apply map_ext; now intros []).
      rewrite (get_map_values (@Ok value)). now destruct (Dict.get k attrs).
    - induction attrs as [|[k v] attrs IH]; cbn; [reflexivity|].
      apply List.NoDup_cons_iff in Hnd as [Hk Hd].
      rewrite String.eqb_refl. f_equal. rewrite <- IH by assumption.
      apply map_ext_in. intros k' Hin.
      destruct (String.eqb k' k) eqn:E; [|reflexivity].
      apply String.eqb_eq in E. subst. contradiction. }
  rewrite Hread, collect_Ok. reflexivity.
Qed.

End AsDict.

(** ** Facts about the fields and the constructor *)

Section Construct.
Variable ct : gmap string klass.

Lemma dataclass_fields_NoDup cls : List.NoDup (field_names ct cls).
Proof.
  unfold field_names, dataclass_fields.
  generalize (rev (mro_of ct cls)). intros l.
  assert (H : List.NoDup (Dict.keys ([] : list (string * option value)))) by constructor.
  revert H. generalize ([] : list (string * option value)).
  induction l as [|c l IH]; cbn; intros acc Hacc; [assumption|].
  apply IH. destruct (ct !! c); [|assumption].
  now apply DictFacts.NoDup_update.
Qed.

Lemma update_app (acc l : list (string * value)) :
  List.NoDup (Dict.keys acc ++ Dict.keys l) -> Dict.update acc l = (acc ++ l)%list.
Proof.
  revert acc. induction l as [|[k v] l IH]; intros acc Hnd.
  - cbn. now rewrite app_nil_r.
  - rewrite DictFacts.update_cons.
    assert (Hk : Dict.get k acc = None).
    { apply DictFacts.get_None_keys. intros Hin.
      apply NoDup_remove_2 in Hnd. apply Hnd. apply in_or_app. now left. }
    rewrite (DictFacts.set_absent k v acc Hk).
    rewrite IH.
    + now rewrite <- app_assoc.
    + unfold Dict.keys in *. rewrite map_app. cbn. now rewrite <- app_assoc.
Qed.

Lemma bind_fields_bound fs kwargs :
  forallb (is_bound kwargs) fs = true ->
  bind_fields fs kwargs = Ok (bound_of fs kwargs).
Proof.
  induction fs as [|[f dflt] fs IH]; cbn; [reflexivity|].
  intros H. apply andb_prop in H as [Hf Hfs].
  rewrite (IH Hfs). unfold is_bound, bound_value in *. cbn in *.
  destruct (Dict.get f kwargs); [reflexivity|].
  destruct dflt; [reflexivity | discriminate].
Qed.

Lemma init_body_settable cls : forall bound acc,
  forallb (settable ct cls) (Dict.keys bound) = true ->
  init_body ct (VInst cls acc) bound = Ok (VInst cls (Dict.update acc bound)).
Proof.
  induction bound as [|[f v] bound IH]; intros acc H; [reflexivity|].
  cbn in H. apply andb_prop in H as [Hf Hrest].
  cbn [init_body]. rewrite (setattr_settable ct cls acc f v Hf). cbn [rbind]. now apply IH.
Qed.

Lemma keys_bound_of fs kwargs : Dict.keys (bound_of fs kwargs) = Dict.keys fs.
Proof.
  unfold Dict.keys, bound_of. rewrite map_map. reflexivity.
Qed.

(** The constructor succeeds when every keyword names a field, every
    field is bound and [setattr] stores every field; the instance then
    holds exactly the fields, in order, each with its bound value. *)
Lemma construct_bound cls kwargs :
  forallb (fun kv => is_field ct cls (fst kv)) kwargs = true ->
  forallb (is_bound kwargs) (dataclass_fields ct cls) = true ->
  forallb (settable ct cls) (field_names ct cls) = true ->
  construct ct cls kwargs = Ok (VInst cls (bound_of (dataclass_fields ct cls) kwargs)).
Proof.
  intros Hkw Hbound Hset. unfold construct, bind_args.
  destruct (List.find _ kwargs) as [[k v]|] eqn:Hfind.
  - apply find_some in Hfind as [Hin Hk]. cbn in Hk.
    rewrite forallb_forall in Hkw. apply Hkw in Hin. cbn in Hin.
    unfold is_field in Hin. rewrite Hin in Hk. discriminate.
  - rewrite (bind_fields_bound _ _ Hbound). cbn.
    rewrite init_body_settable by (rewrite keys_bound_of; exact Hset).
    rewrite update_app; [reflexivity|].
    cbn. rewrite keys_bound_of. apply dataclass_fields_NoDup.
Qed.

(** A keyword that names no field is refused. *)
Lemma construct_unexpected cls kwargs k v :
  In (k, v) kwargs -> is_field ct cls k = false ->
  exists msg, construct ct cls kwargs = Raise (TypeError msg).
Proof.
  intros Hin Hk. unfold construct, bind_args.
  destruct (List.find _ kwargs) as [[k' v']|] eqn:Hfind; cbn; [eauto|].
  exfalso. apply (find_none _ _ Hfind) in Hin. cbn in Hin.
  unfold is_field in Hk. rewrite Hk in Hin. discriminate.
Qed.

Lemma get_bound_of fs kwargs f dflt :
  Dict.get f fs = Some dflt ->
  Dict.get f (bound_of fs kwargs)
  = Some (match bound_value kwargs (f, dflt) with Some v => v | None => VNone end).
Proof.
  induction fs as [|[f' d'] fs IH]; cbn; [discriminate|].
  destruct (String.eqb f f') eqn:E.
  - apply String.eqb_eq in E. subst. now intros [= ->].
  - assumption.
Qed.

End Construct.

(** ** [from_dict] *)

Section FromDict.
Variable ct : gmap string klass.





(** When the keys that name an attribute are declared fields, and the
    constructor can bind and assign every field, the instance is built
    from those keys and the defaults. *)
Lemma from_dict_builds cls m kwargs :
  let used := Dict.filter_items (fun k _ => hasattr ct cls k) (Dict.update m kwargs) in
  forallb (fun k => implb (hasattr ct cls k) (is_field ct cls k))
          (Dict.keys (Dict.update m kwargs)) = true ->
  forallb (is_bound used) (dataclass_fields ct cls) = true ->
  forallb (settable ct cls) (field_names ct cls) = true ->
  Config_from_dict ct cls m kwargs
  = Ok (VInst cls (bound_of (dataclass_fields ct cls) used)).
Proof.
  intros used Hkeys Hbound Hset. unfold Config_from_dict.
  apply construct_bound; try assumption.
  apply forallb_forall. intros [k v] Hin. cbn.
  unfold Dict.filter_items in Hin. apply filter_In in Hin as [Hin Hattr].
  cbn in Hattr. rewrite forallb_forall in Hkeys.
  assert (Hk : In k (Dict.keys (Dict.update m kwargs)))
    by (change k with (fst (k, v)); now apply in_map).
  apply Hkeys in Hk. now rewrite Hattr in Hk.
Qed.


Lemma bound_of_self (fs : list (string * option value)) (attrs : list (string * value)) :
  Dict.keys fs = Dict.keys attrs ->
  List.NoDup (Dict.keys attrs) ->
  bound_of fs attrs = attrs.
Proof.
  intros Hkeys Hnd. unfold bound_of, bound_value.
  transitivity (map (fun k => (k, match Dict.get k attrs with
                                  | Some v => v
                                  | None => VNone
                                  end)) (Dict.keys attrs)).
  - rewrite <- Hkeys. unfold Dict.keys. rewrite map_map.
    apply map_ext_in. intros [f dflt] Hin. cbn. f_equal.
    assert (Hf : In f (Dict.keys attrs))
      by (rewrite <- Hkeys; change f with (fst (f, dflt)); now apply in_map).
    apply DictFacts.mem_true in Hf. unfold Dict.mem in Hf.
    now destruct (Dict.get f attrs).
  - clear Hkeys. induction attrs as [|[k v] attrs IH]; cbn; [reflexivity|].
    apply List.NoDup_cons_iff in Hnd as [Hk Hd].
    rewrite String.eqb_refl. f_equal. rewrite <- IH at 2 by assumption.
    apply map_ext_in. intros k' Hin.
    destruct (String.eqb k' k) eqn:E; [|reflexivity].
    apply String.eqb_eq in E. subst. contradiction.
Qed.

(** C4, amended.  An instance that holds exactly its declared fields, as
    [__init__] leaves it, none of them holding a config instance (alone or
    inside a list or a dict), of a class that gives every declared field a
    class attribute and shadows none by a property, is serialised by
    [dict] as its own [__dict__], and [from_dict] builds from it an
    instance with the same class and the same value in every field.  This
    holds whether or not a field is [None]. *)
Theorem from_dict_of_dict_gives_the_instance_back cls attrs :
  Dict.keys attrs = field_names ct cls ->
  forallb (fun kv => plain (snd kv)) attrs = true ->
  forallb (fun f => hasattr ct cls f && settable ct cls f) (field_names ct cls) = true ->
  exists d c',
    Config_dict ct (VInst cls attrs) = Ok d
    /\ Config_from_dict ct cls d [] = Ok c'
    /\ c' = VInst cls attrs
    /\ same_fields ct c' (VInst cls attrs).
Proof.
  intros Hkeys Hplain Hcls.
  pose proof (dataclass_fields_NoDup ct cls) as Hnd.
  rewrite forallb_forall in Hcls.
  exists attrs, (VInst cls attrs). split; [|split; [|split]].
  - unfold Config_dict. now apply asdict_plain_instance.
  - unfold Config_from_dict. rewrite DictFacts.update_nil.
    rewrite DictFacts.filter_items_all.
    + rewrite construct_bound.
      * rewrite bound_of_self; [reflexivity | now rewrite Hkeys | now rewrite Hkeys].
      * apply forallb_forall. intros [k v] Hin. cbn. unfold is_field.
        apply DictFacts.mem_true. fold (field_names ct cls). rewrite <- Hkeys.
        change k with (fst (k, v)). now apply in_map.
      * apply forallb_forall. intros [f dflt] Hin. unfold is_bound, bound_value. cbn.
        assert (Hf : In f (Dict.keys attrs)).
        { rewrite Hkeys. change f with (fst (f, dflt)). now apply in_map. }
        apply DictFacts.mem_true in Hf. unfold Dict.mem in Hf.
        now destruct (Dict.get f attrs).
      * apply forallb_forall. intros f Hin. apply Hcls in Hin.
        now apply andb_prop in Hin as [_ H].
    + intros k v Hin.
      assert (Hk : In k (field_names ct cls)).
      { rewrite <- Hkeys. change k with (fst (k, v)). now apply in_map. }
      apply Hcls in Hk. now apply andb_prop in Hk as [H _].
  - reflexivity.
  - split; [reflexivity|]. apply List.Forall_forall. reflexivity.
Qed.

End FromDict.



Lemma from_dict_of_dict_gives_the_instance_back_witness :
  exists d c',
    Config_dict hezar_classes trainer_config = Ok d
    /\ Config_from_dict hezar_classes "TrainerConfig" d [] = Ok c'
    /\ c' = trainer_config
    /\ same_fields hezar_classes c' trainer_config.
Proof.
  apply (from_dict_of_dict_gives_the_instance_back hezar_classes "TrainerConfig");
    vm_compute; reflexivity.
Defined.

(** C4, counterexample.  [OptimizerConfig(lr=0.5,
    scheduler=LRSchedulerConfig())] has no [None] field; [dict] turns its
    [scheduler] into a mapping and [from_dict] stores that mapping as it
    is, so the instance built back holds a dict where the original holds a
    config: the two differ in that field. *)
Lemma from_dict_of_dict_loses_nested_configs :
  exists attrs d c',
    optimizer_config = VInst "OptimizerConfig" attrs
    /\ forallb (fun kv => negb (is_None (snd kv))) attrs = true
    /\ Config_dict hezar_classes optimizer_config = Ok d
    /\ Config_from_dict hezar_classes "OptimizerConfig" d [] = Ok c'
    /\ Dict.get "scheduler" attrs = Some (VInst "LRSchedulerConfig" [("verbose", VBool true)])
    /\ (exists attrs', c' = VInst "OptimizerConfig" attrs'
                       /\ Dict.get "scheduler" attrs' = Some (VDict [("verbose", VBool true)]))
    /\ c' <> optimizer_config
    /\ ~ same_fields hezar_classes c' optimizer_config.
Proof.
  eexists _, _, _. split; [reflexivity|]. split; [reflexivity|].
  split; [vm_compute; reflexivity|]. split; [vm_compute; reflexivity|].
  split; [reflexivity|]. split; [eexists; split; reflexivity|].
  split; [discriminate|].
  intros [_ H]. vm_compute in H.
  repeat match goal with
         | H : Forall _ (_ :: _) |- _ => inversion H; clear H; subst
         end.
  discriminate.
Qed.

(** ** Facts about the file system *)

Module FSFacts.

Lemma node_in_chain (n : Path.node) : snd n <> [] -> In n (Path.chain n).
Proof.
  destruct n as [abs comps]. cbn. intros Hne. unfold Path.chain. cbn.
  apply in_map_iff. exists (length comps). split.
  - now rewrite firstn_all.
  - apply in_seq. destruct comps; [congruence | cbn; lia].
Qed.

Lemma not_dir_not_root fs n : FS.node_isdir fs n = false -> snd n <> [].
Proof.
  unfold FS.node_isdir. destruct (snd n); congruence.
Qed.

(** After [makedirs] the directory exists. *)
Lemma makedirs_isdir fs p exist_ok fs' :
  FS.makedirs fs p exist_ok = Ok fs' -> FS.isdir fs' p = true.
Proof.
  unfold FS.makedirs, FS.isdir.
  destruct (String.eqb p "") eqn:Hp; [discriminate|].
  generalize (Path.norm p). intros n. cbn [negb andb].
  destruct (FS.node_isdir fs n) eqn:Hdir.
  - destruct exist_ok; [|discriminate]. now intros [= <-].
  - destruct (FS.node_isfile fs n); [discriminate|].
    destruct (existsb _ _); [discriminate|].
    intros [= <-]. unfold FS.node_isdir. cbn [FS.dirs].
    pose proof (not_dir_not_root _ _ Hdir) as Hne.
    destruct (snd n) eqn:Hcomps; [congruence|].
    apply bool_decide_eq_true. apply elem_of_union_r.
    apply elem_of_list_to_set. apply list_elem_of_In.
    apply node_in_chain. now rewrite Hcomps.
Qed.

(** With [exist_ok], an existing directory is left as it is. *)
Lemma makedirs_existing fs p :
  FS.isdir fs p = true -> FS.makedirs fs p true = Ok fs.
Proof.
  unfold FS.makedirs, FS.isdir. intros H. apply andb_prop in H as [Hp Hdir].
  apply negb_true_iff in Hp. now rewrite Hp, Hdir.
Qed.

(** After a write the file holds the document, and the directories are
    those of before. *)
Lemma write_read fs p doc fs' :
  FS.write fs p doc = Ok fs' ->
  FS.read fs' p = Ok doc /\ FS.isfile fs' p = true /\ FS.dirs fs' = FS.dirs fs.
Proof.
  unfold FS.write, FS.read, FS.isfile.
  destruct (String.eqb p "") eqn:Hp; [discriminate|].
  generalize (Path.norm p). intros n. cbn [negb andb].
  destruct (FS.node_isdir fs n) eqn:Hdir; [discriminate|].
  destruct (FS.node_isfile fs (Path.parent n)); [discriminate|].
  destruct (FS.node_isdir fs (Path.parent n)); [|discriminate].
  cbn [negb]. intros [= <-]. cbn [FS.dirs FS.files].
  assert (Hdir' : FS.node_isdir
                    {| FS.dirs := FS.dirs fs; FS.files := <[n := doc]> (FS.files fs) |} n
                  = false) by exact Hdir.
  rewrite Hdir', lookup_insert_eq. repeat split.
  unfold FS.node_isfile. cbn [FS.files].
  pose proof (not_dir_not_root _ _ Hdir) as Hne.
  destruct (snd n); [congruence|].
  rewrite lookup_insert_eq. reflexivity.
Qed.

Lemma parent_differs (n : Path.node) : snd n <> [] -> Path.parent n <> n.
Proof.
  destruct n as [abs comps]. cbn. intros Hne Heq. unfold Path.parent in Heq. cbn in Heq.
  injection Heq as Heq. apply (f_equal (@length string)) in Heq.
  destruct comps as [|c comps] using rev_ind; [congruence|].
  rewrite removelast_last, length_app in Heq. cbn in Heq. lia.
Qed.

(** Writing the same document to the same file again succeeds and
    changes nothing. *)
Lemma write_again fs p doc fs' :
  FS.write fs p doc = Ok fs' -> FS.write fs' p doc = Ok fs'.
Proof.
  unfold FS.write.
  destruct (String.eqb p "") eqn:Hp; [discriminate|].
  generalize (Path.norm p). intros n.
  destruct (FS.node_isdir fs n) eqn:Hdir; [discriminate|].
  destruct (FS.node_isfile fs (Path.parent n)) eqn:Hpf; [discriminate|].
  destruct (FS.node_isdir fs (Path.parent n)) eqn:Hpd; [|discriminate].
  cbn [negb]. intros [= <-].
  pose proof (not_dir_not_root _ _ Hdir) as Hne.
  set (fs' := {| FS.dirs := FS.dirs fs; FS.files := <[n := doc]> (FS.files fs) |}).
  assert (H1 : FS.node_isdir fs' n = false) by exact Hdir.
  assert (H2 : FS.node_isdir fs' (Path.parent n) = true) by exact Hpd.
  assert (H3 : FS.node_isfile fs' (Path.parent n) = false).
  { unfold FS.node_isfile in *. unfold fs'. cbn [FS.files].
    destruct (snd (Path.parent n)); [reflexivity|].
    rewrite lookup_insert_ne; [assumption|].
    intros Heq. now apply (parent_differs n). }
  rewrite H1, H2, H3. cbn [negb]. unfold fs'. cbn [FS.dirs FS.files].
  now rewrite insert_insert_eq.
Qed.

End FSFacts.

(** ** [save], and [load] after it *)


Lemma isdir_same_dirs fs fs' p : FS.dirs fs' = FS.dirs fs -> FS.isdir fs' p = FS.isdir fs p.
Proof.
  intros H. unfold FS.isdir, FS.node_isdir. now rewrite H.
Qed.

(** [os.path.join] gives an absolute path exactly when one of its
    arguments is absolute. *)
Lemma isabs_join a b : Path.isabs (Path.join a b) = Path.isabs a || Path.isabs b.
Proof.
  unfold Path.join, Path.isabs.
  destruct (Str.startswith "/" b) eqn:Hb; [now rewrite orb_true_r|].
  rewrite orb_false_r.
  destruct a as [|c a]; [exact Hb|].
  assert (Hfirst : forall x y,
             Str.startswith "/" (String c x) = Str.startswith "/" (String c y)).
  { intros x y. unfold Str.startswith. cbn [String.prefix].
    destruct (ascii_dec "/" c); [|reflexivity]. now destruct x, y. }
  destruct (String.eqb (String c a) "" || Str.endswith_char "/" (String c a)).
  - change (String c a ++ b) with (String c (a ++ b)). apply Hfirst.
  - change (String c a ++ "/" ++ b) with (String c (a ++ "/" ++ b)). apply Hfirst.
Qed.

Lemma isabs_join3 a b c :
  Path.isabs (Path.join3 a b c) = Path.isabs a || Path.isabs b || Path.isabs c.
Proof. unfold Path.join3. now rewrite !isabs_join. Qed.

Section Save.
Variable ct : gmap string klass.

(** C8, amended.  When the instance can be serialised and the file system
    lets the directory be made and the file be written, [save] makes the
    directory [save_dir/subfolder] if it is missing and accepts it if it
    exists, writes the mapping without its [None] items to
    [save_dir/subfolder/filename], and returns that path as
    [os.path.join] composed it, without making it absolute: the path
    returned is absolute exactly when the directory, the subfolder or the
    filename is.  A second [save] with the same arguments succeeds again
    and leaves the file system as the first left it. *)
Theorem save_writes_and_returns_the_joined_path c save_dir filename subfolder w items fs1 fs2 :
  let target := Path.join save_dir (or_else subfolder "") in
  let path := Path.join3 save_dir (or_else subfolder "") filename in
  let doc := Dict.filter_items (fun _ v => negb (is_None v)) items in
  Config_dict ct c = Ok items ->
  FS.makedirs (w_fs w) target true = Ok fs1 ->
  FS.write fs1 path doc = Ok fs2 ->
  Config_save ct c save_dir filename subfolder w = (Ok path, set_fs fs2 w)
  /\ Path.isabs path
     = Path.isabs save_dir || Path.isabs (or_else subfolder "") || Path.isabs filename
  /\ FS.isdir fs2 target = true
  /\ (FS.isdir (w_fs w) target = true -> fs1 = w_fs w)
  /\ FS.read fs2 path = Ok doc
  /\ Config_save ct c save_dir filename subfolder (set_fs fs2 w) = (Ok path, set_fs fs2 w).
Proof.
  intros target path doc Hdict Hmk Hwr.
  destruct (FSFacts.write_read _ _ _ _ Hwr) as (Hread & Hfile & Hdirs).
  assert (Hdir2 : FS.isdir fs2 target = true).
  { rewrite (isdir_same_dirs fs1 fs2 target Hdirs). now apply FSFacts.makedirs_isdir in Hmk. }
  split; [|split; [|split; [|split; [|split]]]].
  - unfold Config_save. monad_unfold. rewrite Hdict. cbn.
    fold target. rewrite Hmk. cbn. fold path. fold doc. now rewrite Hwr.
  - apply isabs_join3.
  - exact Hdir2.
  - intros Hdir. rewrite (FSFacts.makedirs_existing _ _ Hdir) in Hmk. congruence.
  - exact Hread.
  - unfold Config_save. monad_unfold. rewrite Hdict. cbn.
    fold target. rewrite (FSFacts.makedirs_existing _ _ Hdir2). cbn.
    fold path. fold doc. now rewrite (FSFacts.write_again _ _ _ _ Hwr).
Qed.

End Save.

Lemma save_writes_and_returns_the_joined_path_witness :
  Config_save hezar_classes trainer_config "saved/trainer" "train_config.yaml"
    (Some "run1") empty_world
  = (Ok "saved/trainer/run1/train_config.yaml", set_fs run1_saved empty_world)
  /\ Path.isabs "saved/trainer/run1/train_config.yaml" = false
  /\ FS.isdir run1_saved "saved/trainer/run1" = true
  /\ (FS.isdir FS.empty "saved/trainer/run1" = true -> run1_directory = FS.empty)
  /\ FS.read run1_saved "saved/trainer/run1/train_config.yaml"
     = Ok (Dict.filter_items (fun _ v => negb (is_None v)) trainer_items)
  /\ Config_save hezar_classes trainer_config "saved/trainer" "train_config.yaml"
       (Some "run1") (set_fs run1_saved empty_world)
     = (Ok "saved/trainer/run1/train_config.yaml", set_fs run1_saved empty_world).
Proof.
  apply (save_writes_and_returns_the_joined_path hezar_classes trainer_config
           "saved/trainer" "train_config.yaml" (Some "run1") empty_world
           trainer_items run1_directory run1_saved);
    vm_compute; reflexivity.
Defined.

(** C8, counterexample.  [save] into the relative directory
    "saved/trainer" returns the relative path
    "saved/trainer/train_config.yaml", not an absolute one. *)
Lemma save_returns_a_relative_path :
  fst (Config_save hezar_classes trainer_config "saved/trainer" "train_config.yaml" None
         empty_world)
  = Ok "saved/trainer/train_config.yaml"
  /\ Path.isabs "saved/trainer/train_config.yaml" = false.
Proof. split; vm_compute; reflexivity. Qed.

Section SaveLoad.
Variables DEFAULT_MODEL_CONFIG_FILE HEZAR_CACHE_DIR : string.
Variable ct : gmap string klass.
Variable registry : list (string * string * string).

(** [load] on a file that exists locally: the file is read, the class is
    resolved from its two discriminators and [from_dict] is called with
    the mapping and [strict=False]; the state is left as it is. *)
Lemma load_local_file w path filename subfolder repo_type doc name config_type cls :
  let config_path :=
    Path.join3 path (or_else subfolder "") (or_else filename DEFAULT_MODEL_CONFIG_FILE) in
  FS.isfile (w_fs w) config_path = true ->
  FS.read (w_fs w) config_path = Ok doc ->
  getitem doc "name" = Ok name ->
  getitem doc "config_type" = Ok config_type ->
  get_module_config_class registry name config_type = Ok cls ->
  Config_load DEFAULT_MODEL_CONFIG_FILE HEZAR_CACHE_DIR ct registry
    path filename subfolder repo_type [] w
  = (Config_from_dict ct cls doc [("strict", VBool false)], w).
Proof.
  intros config_path Hfile Hread Hname Htype Hreg.
  unfold Config_load. monad_unfold. cbn. fold config_path.
  rewrite Hfile, andb_false_r. cbn. rewrite Hread. cbn.
  rewrite Hname. cbn. rewrite Htype. cbn. rewrite Hreg. cbn. reflexivity.
Qed.

End SaveLoad.

(** C5.  [CriterionConfig(ignore_index=None)], whose field [ignore_index]
    has the declared default -100, is saved without its [None] fields,
    as the claim says.  The class declares neither [name] nor
    [config_type] as a field, so the saved file holds neither, and [load]
    on that file raises [KeyError] on [name] where the claim has it return
    an instance whose [ignore_index] is -100. *)
Lemma load_after_save_raises_KeyError :
  Dict.get "ignore_index" (dataclass_fields hezar_classes "CriterionConfig")
  = Some (Some (VInt (-100)))
  /\ (exists attrs, criterion_config = VInst "CriterionConfig" attrs
                    /\ Dict.get "ignore_index" attrs = Some VNone)
  /\ Config_save hezar_classes criterion_config "saved/criterion" "criterion.yaml" None
       empty_world
     = (Ok "saved/criterion/criterion.yaml", criterion_saved_world)
  /\ FS.read (w_fs criterion_saved_world) "saved/criterion/criterion.yaml" = Ok []
  /\ fst (Config_load example_config_file example_cache_dir hezar_classes user_registry
            "saved/criterion" (Some "criterion.yaml") None None [] criterion_saved_world)
     = Raise (KeyError "name").
Proof.
  split; [vm_compute; reflexivity|].
  split; [eexists; split; reflexivity|].
  repeat split; vm_compute; reflexivity.
Qed.

Lemma load_local_directory_never_fetched_witness :
  Config_load example_config_file example_cache_dir hezar_classes user_registry
    "saved/bert" None None None [] local_dir_world
  = (Raise (EnvironmentError
              "Path `saved/bert` exists locally but the config file model_config.yaml is missing!"),
     local_dir_world)
  /\ w_downloads
       (snd (Config_load example_config_file example_cache_dir hezar_classes user_registry
               "saved/bert" None None None [] local_dir_world))
     = w_downloads local_dir_world.
Proof.
  apply (proj1 (load_local_directory_never_fetched
                  example_config_file example_cache_dir hezar_classes user_registry
                  local_dir_world "saved/bert" None None None []));
    vm_compute; reflexivity.
Defined.


(** ** [name] and [__getitem__] *)

Section Attributes.
Variable snake_case : string -> string.
Variable ct : gmap string klass.

(** Where the class resolves [name] to the property of [Config], reading
    [name] computes the identifier from the class name, whatever the
    instance holds. *)
Lemma getattr_name_property cls attrs w :
  name_is_Config_property ct cls = true ->
  getattr snake_case ct (VInst cls attrs) "name" w
  = (Ok (VStr (class_identifier snake_case cls)), w).
Proof.
  unfold name_is_Config_property, getattr. intros H.
  destruct (type_lookup ct cls "name") as [[]|]; try discriminate.
  rewrite H. reflexivity.
Qed.



End Attributes.

(** C7, amended.  For every class that resolves [name] to the property of
    [Config], as every class of [configs.py] does, reading [name] on an
    instance computes the identifier from the class name (snake case of
    the name without "Config", or "base" when that is empty) and does not
    depend on what the instance holds.  [BPEConfig] and [BPETrainConfig]
    declare [name] as a dataclass field: on their instances [name] is the
    value given to the constructor, stored in the instance. *)
Theorem name_is_computed_unless_declared_as_a_field snake_case :
  (forall ct cls attrs w,
     name_is_Config_property ct cls = true ->
     getattr snake_case ct (VInst cls attrs) "name" w
     = (Ok (VStr (class_identifier snake_case cls)), w))
  /\ forallb (name_is_Config_property hezar_classes) configs_class_names = true
  /\ (forall cls, In cls ["BPEConfig"; "BPETrainConfig"] ->
        is_field hezar_classes cls "name" = true
        /\ forall v w, exists c,
             construct hezar_classes cls [("name", v)] = Ok c
             /\ getattr snake_case hezar_classes c "name" w = (Ok v, w)).
Proof.
  split; [|split].
  - intros ct cls attrs w H. now apply getattr_name_property.
  - vm_compute. reflexivity.
  - intros cls [<-|[<-|[]]]; (split; [vm_compute; reflexivity|]);
      intros v w; eexists; (split; [vm_compute; reflexivity|]); reflexivity.
Qed.

Lemma name_is_computed_unless_declared_as_a_field_witness :
  getattr snake_case_model hezar_classes trainer_config "name" empty_world
  = (Ok (VStr "trainer"), empty_world).
Proof.
  exact (proj1 (name_is_computed_unless_declared_as_a_field snake_case_model)
           hezar_classes "TrainerConfig"
           (match trainer_config with VInst _ a => a | _ => [] end)
           empty_world eq_refl).
Defined.

(** C7, counterexample.  Two instances of [BPEConfig] have different
    names, "bpe_tokenizer" (the default of the field) and "gpt2_bpe" (the
    argument), neither being the identifier "bpe" that the class name
    gives. *)
Lemma name_of_BPEConfig_is_stored :
  exists c1 c2,
    construct hezar_classes "BPEConfig" [] = Ok c1
    /\ construct hezar_classes "BPEConfig" [("name", VStr "gpt2_bpe")] = Ok c2
    /\ fst (getattr snake_case_model hezar_classes c1 "name" empty_world)
       = Ok (VStr "bpe_tokenizer")
    /\ fst (getattr snake_case_model hezar_classes c2 "name" empty_world)
       = Ok (VStr "gpt2_bpe")
    /\ Config_name snake_case_model c2 = Ok "bpe".
Proof.
  eexists _, _. split; [vm_compute; reflexivity|]. split; [vm_compute; reflexivity|].
  repeat split; vm_compute; reflexivity.
Qed.




(** * Further properties of the methods *)

(** ** [config_type], case by case *)

Lemma category_BASE_iff_Config k t :
  Dict.get k CONFIG_TYPES_MAPPING = Some t ->
  ConfigType_eqb t BASE = true <-> k = "Config".
Proof.
  unfold CONFIG_TYPES_MAPPING. cbn [Dict.get].
  repeat match goal with
         | |- context [String.eqb k ?s] =>
             destruct (String.eqb_spec k s) as [->|?]
         end;
    intros [= <-]; cbn; split; congruence.
Qed.

Section ConfigTypeOutcomes.
Variable ct : gmap string klass.

(** X1.  On an instance of a class that has a parent, [config_type] returns a
    value exactly when the name of the direct parent is a key of
    [CONFIG_TYPES_MAPPING] and either the name of the class is a key too
    or the parent is [Config].  Otherwise it raises [KeyError], on the
    name of the parent or on the name of the class, and leaves the state
    as it is.  A warning is logged exactly when it returns for a class
    whose name is not a key. *)
Theorem config_type_returns_iff cls parent rest attrs w :
  mro_of ct cls = cls :: parent :: rest ->
  let out := Config_config_type ct (VInst cls attrs) w in
  let known := fun k => Dict.mem k CONFIG_TYPES_MAPPING in
  (is_ok (fst out) = true <-> known parent = true /\ (known cls = true \/ parent = "Config"))
  /\ (is_ok (fst out) = false ->
      snd out = w
      /\ ((known parent = false /\ fst out = Raise (KeyError parent))
          \/ (known parent = true /\ fst out = Raise (KeyError cls))))
  /\ (is_ok (fst out) = true ->
      (known cls = true -> snd out = w)
      /\ (known cls = false -> exists msg, snd out = add_log msg w)).
Proof.
  intros Hmro out known. unfold out, known, Config_config_type, Dict.mem.
  monad_unfold. cbn. rewrite Hmro. cbn.
  destruct (Dict.get parent CONFIG_TYPES_MAPPING) as [t|] eqn:Hparent; cbn.
  - pose proof (category_BASE_iff_Config parent t Hparent) as Hbase.
    destruct (Dict.get cls CONFIG_TYPES_MAPPING) as [t'|] eqn:Hcls; cbn.
    + rewrite andb_false_r. cbn.
      intuition (try discriminate; try congruence; eauto).
    + rewrite andb_true_r.
      destruct (ConfigType_eqb t BASE) eqn:E; cbn;
        intuition (try discriminate; try congruence; eauto).
  - intuition (try discriminate; try congruence; eauto).
Qed.

(** X2.  A class that extends [Config] directly and is no category class
    reports its own name, lower-cased and without "Config", whatever the
    instance holds; each read logs one warning, which names the class and
    the type it was given. *)
Theorem config_type_of_a_direct_subclass_is_its_name cls rest attrs w :
  mro_of ct cls = cls :: "Config" :: rest ->
  Dict.mem cls CONFIG_TYPES_MAPPING = false ->
  let config_type := Str.lower (Str.replace "Config" "" cls) in
  Config_config_type ct (VInst cls attrs) w
  = (Ok config_type,
     add_log ("You are attempting to create a config class from the base class `Config` which is "
              ++ "not recommended!" ++ newline
              ++ "Your config class is " ++ cls ++ " "
              ++ "and the `config_type` will be `" ++ config_type ++ "`") w).
Proof.
  intros Hmro Hcls config_type.
  unfold Config_config_type. monad_unfold. cbn. rewrite Hmro. cbn.
  now rewrite Hcls.
Qed.

End ConfigTypeOutcomes.

(** ** [dict] and the container methods *)

Section DictShape.
Variable ct : gmap string klass.

Lemma collect_list_inv {A} (rs : list (result A)) l :
  collect_list rs = Ok l -> rs = map Ok l.
Proof.
  revert l. induction rs as [|r rs IH]; cbn; intros l H.
  - now injection H as <-.
  - destruct r as [a|e]; cbn in H; [|discriminate].
    destruct (collect_list rs) as [rest|e]; cbn in H; [|discriminate].
    injection H as <-. cbn. f_equal. now apply IH.
Qed.

Lemma asdict_inner_is_plain v : forall v', asdict_inner ct v = Ok v' -> plain v' = true.
Proof.
  induction v as [| | | | |xs IH|items IH|cls attrs IH| |] using value_nested_ind;
    cbn; intros v' H; try (injection H as <-; reflexivity).
  - destruct (collect_list _) as [ys|e] eqn:Hys; cbn in H; [|discriminate].
    injection H as <-. cbn. apply collect_list_inv in Hys.
    apply forallb_forall. intros y Hy.
    assert (Hin : In (Ok y) (map (asdict_inner ct) xs)) by (rewrite Hys; now apply in_map).
    apply in_map_iff in Hin as [x [Hx Hin]].
    rewrite List.Forall_forall in IH. now apply (IH x Hin).
  - destruct (collect _) as [items'|e] eqn:Hitems; cbn in H; [|discriminate].
    injection H as <-. cbn. apply collect_inv in Hitems.
    apply forallb_forall. intros [k y] Hy. cbn.
    assert (Hin : In (k, Ok y)
                    (map (fun kv => match kv with (k, x) => (k, asdict_inner ct x) end) items)).
    { rewrite Hitems. apply in_map_iff. now exists (k, y). }
    apply in_map_iff in Hin as [[k' x] [Hx Hin]]. injection Hx as -> Hx.
    rewrite List.Forall_forall in IH. now apply (IH (k, x) Hin).
  - set (converted := map _ attrs) in H.
    destruct (collect _) as [items'|e] eqn:Hitems; cbn in H; [|discriminate].
    injection H as <-. cbn. apply collect_inv in Hitems.
    apply forallb_forall. intros [k y] Hy. cbn.
    assert (Hin : In (k, Ok y) (map (read_field cls converted) (field_names ct cls))).
    { rewrite Hitems. apply in_map_iff. now exists (k, y). }
    apply in_map_iff in Hin as [f [Hread _]]. unfold read_field in Hread.
    destruct (Dict.get f converted) as [r|] eqn:Hconv; [|congruence].
    injection Hread as -> ->.
    unfold converted in Hconv. rewrite get_map_values in Hconv.
    destruct (Dict.get k attrs) as [x|] eqn:Hx; [|discriminate].
    injection Hconv as Hconv. apply DictFacts.get_Some_In in Hx.
    rewrite List.Forall_forall in IH. now apply (IH (k, x) Hx).
Qed.

(** X3.  Whatever [dict] returns holds no config instance at any depth: the
    configs nested in fields, lists and dicts have all become mappings,
    and serialising the result again changes nothing. *)
Theorem dict_holds_no_instance c d :
  Config_dict ct c = Ok d ->
  forallb (fun kv => plain (snd kv)) d = true
  /\ asdict_inner ct (VDict d) = Ok (VDict d).
Proof.
  intros H. unfold Config_dict, asdict in H.
  destruct c; try discriminate.
  destruct (asdict_inner ct (VInst cls attrs)) as [v|e] eqn:Hv; [|discriminate].
  pose proof (asdict_inner_is_plain _ _ Hv) as Hplain.
  destruct v; try discriminate. injection H as <-.
  split; [exact Hplain | now apply asdict_inner_plain].
Qed.



End DictShape.

Section UndeclaredAttributes.
Variable snake_case : string -> string.
Variable ct : gmap string klass.

Lemma not_a_slot k :
  string_in k slot_attrs = false ->
  String.eqb k "__class__" = false /\ String.eqb k "__dict__" = false
  /\ String.eqb k "__weakref__" = false.
Proof.
  unfold string_in, slot_attrs. cbn [existsb].
  destruct (String.eqb k "__class__"), (String.eqb k "__dict__"),
    (String.eqb k "__weakref__"); cbn; intros H; try discriminate; auto.
Qed.

(** An attribute that [setattr] stores is read from the instance. *)
Lemma getattr_stored cls attrs k x w :
  settable ct cls k = true ->
  Dict.get k attrs = Some x ->
  getattr snake_case ct (VInst cls attrs) k w = (Ok x, w).
Proof.
  unfold settable, getattr. intros Hset Hget.
  destruct (type_lookup ct cls k) as [[]|]; try discriminate; try (now rewrite Hget).
  apply negb_true_iff, not_a_slot in Hset as (-> & -> & ->). now rewrite Hget.
Qed.


End UndeclaredAttributes.

(** ** [get] *)

Section Get.
Variable snake_case : string -> string.
Variable ct : gmap string klass.

Lemma config_type_never_AttributeError self w msg :
  fst (Config_config_type ct self w) <> Raise (AttributeError msg).
Proof.
  unfold Config_config_type. monad_unfold. intros H.
  destruct self; try (cbn in H; discriminate).
  cbn [class_name] in H.
  destruct (nth_error (mro_of ct cls) 1) as [parent|]; [|cbn in H; discriminate].
  destruct (Dict.get parent CONFIG_TYPES_MAPPING) as [t|]; [|cbn in H; discriminate].
  destruct (ConfigType_eqb t BASE && negb (Dict.mem cls CONFIG_TYPES_MAPPING));
    [cbn in H; discriminate|].
  destruct (Dict.get cls CONFIG_TYPES_MAPPING); cbn in H; discriminate.
Qed.

(** X6.  [get(key, default)] returns [default], and leaves the state as it
    is, for a name that neither the instance, nor its classes, nor
    [object] define, [__annotations__] counting as defined by the classes
    when one of them annotates a name; for [__annotations__] it then
    returns the annotations of the nearest annotating class, whatever the
    default.  It returns the stored value of an attribute that [setattr]
    stores.  For [config_type], where it is the property of [Config], the
    default is never used: [get] returns what the property returns and
    raises what it raises, [KeyError] included. *)
Theorem get_uses_the_default_for_missing_names_only cls attrs k default w :
  (type_lookup ct cls k = None -> Dict.get k attrs = None ->
   string_in k object_attrs = false ->
   (k = "__annotations__" -> mro_annotations ct (mro_of ct cls) = None) ->
   Config_get snake_case ct (VInst cls attrs) k default w = (Ok default, w))
  /\ (forall names,
        type_lookup ct cls "__annotations__" = None ->
        Dict.get "__annotations__" attrs = None ->
        mro_annotations ct (mro_of ct cls) = Some names ->
        exists items,
          Config_get snake_case ct (VInst cls attrs) "__annotations__" default w
          = (Ok (VDict items), w)
          /\ Dict.keys items = names)
  /\ (forall x, settable ct cls k = true -> Dict.get k attrs = Some x ->
                Config_get snake_case ct (VInst cls attrs) k default w = (Ok x, w))
  /\ (type_lookup ct cls "config_type" = Some (VProperty "config_type") ->
      Config_get snake_case ct (VInst cls attrs) "config_type" default w
      = (rbind (fst (Config_config_type ct (VInst cls attrs) w)) (fun t => Ok (VStr t)),
         snd (Config_config_type ct (VInst cls attrs) w))).
Proof.
  split; [|split; [|split]].
  - intros Hnone Hattrs Hobj Hann. unfold Config_get, getattr.
    rewrite Hnone, Hattrs, Hobj.
    assert (Hslot : string_in k slot_attrs = false).
    { unfold string_in, slot_attrs. cbn [existsb].
      destruct (String.eqb_spec k "__class__") as [->|_]; [discriminate Hobj|].
      destruct (String.eqb_spec k "__dict__") as [->|_]; [discriminate Hobj|].
      destruct (String.eqb_spec k "__weakref__") as [->|_]; [discriminate Hobj|].
      reflexivity. }
    apply not_a_slot in Hslot as (-> & -> & ->).
    destruct (String.eqb_spec k "__annotations__") as [Hk|_]; [|reflexivity].
    now rewrite (Hann Hk).
  - intros names Hnone Hattrs Hnames.
    exists (map (fun n => (n, VFunction "type")) names). split.
    + unfold Config_get, getattr. rewrite Hnone, Hattrs. cbn. now rewrite Hnames.
    + unfold Dict.keys. rewrite map_map. cbn. apply map_id.
  - intros x Hset Hget. unfold Config_get.
    now rewrite (getattr_stored snake_case ct cls attrs k x w Hset Hget).
  - intros Hprop. unfold Config_get, getattr. rewrite Hprop.
    pose proof (config_type_never_AttributeError (VInst cls attrs) w) as Hnever.
    remember (Config_config_type ct (VInst cls attrs)) as read eqn:Hread.
    cbn. unfold bind, ret.
    destruct (read w) as [[t|e] w']; cbn in *; [reflexivity|].
    destruct e; try reflexivity. exfalso. now apply (Hnever msg).
Qed.

End Get.

(** ** [from_dict]: overrides and defaults *)

Section FromDictValues.
Variable ct : gmap string klass.

(** The value that [from_dict] gives to each field of a class whose
    fields all have a default. *)
Lemma from_dict_field_values cls m kwargs :
  distinct (Dict.keys kwargs) = true ->
  forallb (defaulted_field ct cls) (dataclass_fields ct cls) = true ->
  forallb (fun k => implb (hasattr ct cls k) (is_field ct cls k))
          (Dict.keys (Dict.update m kwargs)) = true ->
  exists attrs,
    Config_from_dict ct cls m kwargs = Ok (VInst cls attrs)
    /\ Dict.keys attrs = field_names ct cls
    /\ forall f dflt,
         Dict.get f (dataclass_fields ct cls) = Some (Some dflt) ->
         Dict.get f attrs
         = Some (match Dict.get f kwargs with
                 | Some v => v
                 | None => match Dict.get f m with
                           | Some x => x
                           | None => dflt
                           end
                 end).
Proof.
  intros Hdistinct Hall Hkeys.
  apply distinct_NoDup in Hdistinct.
  set (used := Dict.filter_items (fun k (_ : value) => hasattr ct cls k)
                 (Dict.update m kwargs)).
  rewrite forallb_forall in Hall.
  exists (bound_of (dataclass_fields ct cls) used). split; [|split].
  - apply from_dict_builds; [assumption| |].
    + apply forallb_forall. intros [f d] Hin. apply Hall in Hin.
      unfold defaulted_field in Hin. cbn in Hin.
      apply andb_prop in Hin as [Hin _]. apply andb_prop in Hin as [Hd _].
      unfold is_bound, bound_value. cbn.
      destruct (Dict.get f _); [reflexivity|]. now destruct d.
    + apply forallb_forall. intros f Hin. unfold field_names, Dict.keys in Hin.
      apply in_map_iff in Hin as [[f' d] [<- Hin]]. apply Hall in Hin.
      unfold defaulted_field in Hin. now apply andb_prop in Hin as [_ H].
  - apply keys_bound_of.
  - intros f dflt Hf. rewrite (get_bound_of _ used f (Some dflt) Hf).
    unfold bound_value. cbn [fst snd].
    assert (Hattr : hasattr ct cls f = true).
    { apply DictFacts.get_Some_In in Hf. apply Hall in Hf.
      unfold defaulted_field in Hf. cbn in Hf.
      now apply andb_prop in Hf as [Hf _]. }
    unfold used. rewrite DictFacts.get_filter_key, Hattr.
    destruct (Dict.get f kwargs) as [v|] eqn:Hkw.
    + now rewrite (DictFacts.get_update_present f v m kwargs Hdistinct Hkw).
    + rewrite DictFacts.get_update_absent by now apply DictFacts.get_None_keys.
      now destruct (Dict.get f m).
Qed.

(** X7.  For a class whose fields all have a default, and a mapping and
    keyword arguments in which every key that names an attribute of the
    class names a declared field, [from_dict] builds an instance that
    holds exactly the declared fields; each field holds the keyword
    argument of its name if there is one, else the item of the mapping,
    else the default: a keyword argument wins over the mapping, which
    wins over the default. *)
Theorem from_dict_keyword_wins_over_mapping_over_default cls m kwargs :
  distinct (Dict.keys kwargs) = true ->
  forallb (defaulted_field ct cls) (dataclass_fields ct cls) = true ->
  forallb (fun k => implb (hasattr ct cls k) (is_field ct cls k))
          (Dict.keys (Dict.update m kwargs)) = true ->
  exists attrs,
    Config_from_dict ct cls m kwargs = Ok (VInst cls attrs)
    /\ Dict.keys attrs = field_names ct cls
    /\ forall f dflt,
         Dict.get f (dataclass_fields ct cls) = Some (Some dflt) ->
         (forall v, Dict.get f kwargs = Some v -> Dict.get f attrs = Some v)
         /\ (forall x, Dict.get f kwargs = None -> Dict.get f m = Some x ->
                       Dict.get f attrs = Some x)
         /\ (Dict.get f kwargs = None -> Dict.get f m = None ->
             Dict.get f attrs = Some dflt).
Proof.
  intros Hdistinct Hall Hkeys.
  destruct (from_dict_field_values cls m kwargs Hdistinct Hall Hkeys)
    as (attrs & Hbuild & Hnames & Hvalues).
  exists attrs. split; [exact Hbuild|]. split; [exact Hnames|].
  intros f dflt Hf. rewrite (Hvalues f dflt Hf). repeat split.
  - now intros v ->.
  - now intros x -> ->.
  - now intros -> ->.
Qed.

Lemma bind_fields_unbound fs kwargs f :
  Dict.get f fs = Some None -> Dict.get f kwargs = None ->
  exists msg, bind_fields fs kwargs = Raise (TypeError msg).
Proof.
  induction fs as [|[f' d] fs IH]; cbn; [discriminate|].
  intros Hf Hkw. destruct (String.eqb f f') eqn:E.
  - apply String.eqb_eq in E. subst f'. injection Hf as ->. rewrite Hkw. eauto.
  - destruct (IH Hf Hkw) as [msg Hmsg]. rewrite Hmsg.
    destruct (Dict.get f' kwargs); [cbn; eauto|]. destruct d; cbn; eauto.
Qed.

(** X8.  A field declared without a default, for which the class therefore
    has no attribute, cannot be given through [from_dict]: its key is
    dropped with the keys that name no attribute, and the call raises
    [TypeError] whatever the mapping and the keyword arguments hold. *)
Theorem from_dict_raises_for_a_field_without_default cls m kwargs f :
  Dict.get f (dataclass_fields ct cls) = Some None ->
  hasattr ct cls f = false ->
  exists msg, Config_from_dict ct cls m kwargs = Raise (TypeError msg).
Proof.
  intros Hf Hattr. unfold Config_from_dict, construct, bind_args.
  set (used := Dict.filter_items _ _).
  destruct (List.find _ used) as [[k v]|]; cbn; [eauto|].
  destruct (bind_fields_unbound (dataclass_fields ct cls) used f Hf) as [msg Hmsg].
  - unfold used. now rewrite DictFacts.get_filter_key, Hattr.
  - rewrite Hmsg. cbn. eauto.
Qed.

End FromDictValues.

(** ** [load]: the local file, the overrides, the download *)

Section LoadMore.
Variables DEFAULT_MODEL_CONFIG_FILE HEZAR_CACHE_DIR : string.
Variable ct : gmap string klass.
Variable registry : list (string * string * string).

(** What happens to the mapping of a local file whose two discriminators
    resolve to a class. *)
Lemma load_local_resolved w path filename subfolder repo_type kwargs doc name config_type cls :
  let config_path :=
    Path.join3 path (or_else subfolder "") (or_else filename DEFAULT_MODEL_CONFIG_FILE) in
  FS.isfile (w_fs w) config_path = true ->
  FS.read (w_fs w) config_path = Ok doc ->
  getitem doc "name" = Ok name ->
  getitem doc "config_type" = Ok config_type ->
  get_module_config_class registry name config_type = Ok cls ->
  Config_load DEFAULT_MODEL_CONFIG_FILE HEZAR_CACHE_DIR ct registry
    path filename subfolder repo_type kwargs w
  = (if Dict.mem "strict" kwargs || Dict.mem "cls" kwargs || Dict.mem "dict_config" kwargs
     then Raise (TypeError "from_dict() got multiple values for an argument")
     else Config_from_dict ct cls doc (("strict", VBool false) :: kwargs),
     w).
Proof.
  intros config_path Hfile Hread Hname Htype Hreg.
  unfold Config_load. monad_unfold. cbn. fold config_path.
  rewrite Hfile, andb_false_r. cbn. rewrite Hread. cbn.
  rewrite Hname. cbn. rewrite Htype. cbn. rewrite Hreg. cbn.
  now destruct (Dict.mem "strict" kwargs || Dict.mem "cls" kwargs
                || Dict.mem "dict_config" kwargs).
Qed.

(** X9.  When the file composed from location, subfolder and filename exists
    locally, [load] does not reach the Hub and changes nothing, whether
    the location is a directory or not and whatever the outcome.  The
    class that is built is the one that the registry gives for the [name]
    and [config_type] items of the file: a file without [name] raises
    [KeyError]; a file whose items resolve is handed to [from_dict] of
    that class with [strict=False] and the keyword arguments, and a
    keyword argument [strict] makes that call a [TypeError]. *)
Theorem load_reads_the_local_file_and_resolves_its_class
    w path filename subfolder repo_type kwargs doc :
  let config_path :=
    Path.join3 path (or_else subfolder "") (or_else filename DEFAULT_MODEL_CONFIG_FILE) in
  let out := Config_load DEFAULT_MODEL_CONFIG_FILE HEZAR_CACHE_DIR ct registry
               path filename subfolder repo_type kwargs w in
  FS.isfile (w_fs w) config_path = true ->
  FS.read (w_fs w) config_path = Ok doc ->
  snd out = w
  /\ (Dict.get "name" doc = None -> fst out = Raise (KeyError "name"))
  /\ (forall name config_type cls,
        getitem doc "name" = Ok name ->
        getitem doc "config_type" = Ok config_type ->
        get_module_config_class registry name config_type = Ok cls ->
        (Dict.mem "strict" kwargs = true ->
         fst out = Raise (TypeError "from_dict() got multiple values for an argument"))
        /\ (Dict.mem "strict" kwargs || Dict.mem "cls" kwargs
            || Dict.mem "dict_config" kwargs = false ->
            fst out = Config_from_dict ct cls doc (("strict", VBool false) :: kwargs))).
Proof.
  intros config_path out Hfile Hread. split; [|split].
  - now apply load_local_file_keeps_state.
  - intros Hname. unfold out, Config_load. monad_unfold. cbn. fold config_path.
    rewrite Hfile, andb_false_r. cbn. rewrite Hread. cbn.
    unfold getitem. now rewrite Hname.
  - intros name config_type cls Hname Htype Hreg.
    unfold out.
    rewrite (load_local_resolved w path filename subfolder repo_type kwargs
               doc name config_type cls Hfile Hread Hname Htype Hreg).
    cbn. split.
    + now intros ->.
    + now intros ->.
Qed.

Lemma mem_update_kept {V} k (d other : list (string * V)) :
  Dict.mem k d = true -> Dict.mem k (Dict.update d other) = true.
Proof.
  unfold Dict.update. revert d.
  induction other as [|[k' v'] other IH]; intros d Hd; cbn; [exact Hd|].
  apply IH. unfold Dict.mem in *. rewrite DictFacts.get_set.
  now destruct (String.eqb k k').
Qed.

(** X10.  [load] cannot build an instance of a class for which one of the
    two discriminators is an attribute without being a declared field, as
    [name] and [config_type] are, by the properties of [Config], on every
    class of [configs.py]: the file has to hold both discriminators for
    the class to be resolved, [from_dict] keeps them since the class has
    attributes of these names, and the constructor refuses them.  For a
    local file whose discriminators resolve to such a class, [load] raises
    [TypeError] whatever the rest of the file and the keyword arguments
    are, and leaves the state as it is. *)
Theorem load_raises_where_a_discriminator_is_no_field
    w path filename subfolder repo_type kwargs doc name config_type cls key :
  let config_path :=
    Path.join3 path (or_else subfolder "") (or_else filename DEFAULT_MODEL_CONFIG_FILE) in
  FS.isfile (w_fs w) config_path = true ->
  FS.read (w_fs w) config_path = Ok doc ->
  getitem doc "name" = Ok name ->
  getitem doc "config_type" = Ok config_type ->
  get_module_config_class registry name config_type = Ok cls ->
  key = "name" \/ key = "config_type" ->
  hasattr ct cls key = true ->
  is_field ct cls key = false ->
  exists msg,
    Config_load DEFAULT_MODEL_CONFIG_FILE HEZAR_CACHE_DIR ct registry
      path filename subfolder repo_type kwargs w
    = (Raise (TypeError msg), w).
Proof.
  intros config_path Hfile Hread Hname Htype Hreg Hkey Hattr Hfield.
  rewrite (load_local_resolved w path filename subfolder repo_type kwargs
             doc name config_type cls Hfile Hread Hname Htype Hreg).
  destruct (Dict.mem "strict" kwargs || Dict.mem "cls" kwargs || Dict.mem "dict_config" kwargs);
    [eauto|].
  assert (Hin_doc : Dict.mem key doc = true).
  { unfold getitem in Hname, Htype. unfold Dict.mem.
    destruct Hkey as [-> | ->].
    - now destruct (Dict.get "name" doc).
    - now destruct (Dict.get "config_type" doc). }
  pose proof (mem_update_kept key doc (("strict", VBool false) :: kwargs) Hin_doc) as Hmerged.
  unfold Dict.mem in Hmerged.
  destruct (Dict.get key (Dict.update doc (("strict", VBool false) :: kwargs)))
    as [v|] eqn:Hv; [|discriminate].
  destruct (construct_unexpected ct cls
              (Dict.filter_items (fun k _ => hasattr ct cls k)
                 (Dict.update doc (("strict", VBool false) :: kwargs))) key v)
    as [msg Hmsg].
  - apply DictFacts.get_Some_In. now rewrite DictFacts.get_filter_key, Hattr.
  - exact Hfield.
  - exists msg. unfold Config_from_dict. now rewrite Hmsg.
Qed.

(** X18.  [save] writes the declared fields only, and [load] needs the items
    [name] and [config_type] in the file.  For an instance of a class that
    does not declare both as fields, as no class of [configs.py] does,
    [load] on the file that [save] has just written, with
    the same directory, filename and subfolder, raises [KeyError] on one
    of the two, whatever the keyword arguments, and changes nothing. *)
Theorem load_after_save_raises_where_a_discriminator_is_no_field
    cls attrs save_dir filename subfolder repo_type kwargs w path w1 :
  Config_save ct (VInst cls attrs) save_dir filename subfolder w = (Ok path, w1) ->
  String.eqb filename "" = false ->
  is_field ct cls "name" = false \/ is_field ct cls "config_type" = false ->
  exists key,
    (key = "name" \/ key = "config_type")
    /\ Config_load DEFAULT_MODEL_CONFIG_FILE HEZAR_CACHE_DIR ct registry
         save_dir (Some filename) subfolder repo_type kwargs w1
       = (Raise (KeyError key), w1).
Proof.
  intros Hsave Hfn Hfields.
  unfold Config_save in Hsave. monad_unfold.
  destruct (Config_dict ct (VInst cls attrs)) as [items|e] eqn:Hdict;
    cbn in Hsave; [|discriminate].
  set (doc := Dict.filter_items (fun _ v => negb (is_None v)) items) in *.
  destruct (FS.makedirs (w_fs w) _ true) as [fs1|e] eqn:Hmk; cbn in Hsave; [|discriminate].
  destruct (FS.write fs1 _ doc) as [fs2|e] eqn:Hwr; cbn in Hsave; [|discriminate].
  injection Hsave as Hpath Hw1.
  assert (Hfs : w_fs w1 = fs2) by (rewrite <- Hw1; reflexivity).
  clear Hw1. subst path.
  destruct (FSFacts.write_read _ _ _ _ Hwr) as (Hread & Hfile & _).
  rewrite <- Hfs in Hread, Hfile.
  destruct (asdict_instance ct cls attrs items Hdict) as [Hkeys _].
  assert (Hmissing : forall k, is_field ct cls k = false -> Dict.get k doc = None).
  { intros k Hk. apply DictFacts.get_None_keys. intros Hin.
    unfold Dict.keys in Hin. apply in_map_iff in Hin as [[k' v] [Hfst Hin]].
    cbn in Hfst. subst k'.
    unfold doc, Dict.filter_items in Hin. apply filter_In in Hin as [Hin _].
    unfold is_field in Hk. apply DictFacts.mem_false in Hk. apply Hk.
    fold (field_names ct cls). rewrite <- Hkeys.
    change k with (fst (k, v)). now apply in_map. }
  assert (Hor : or_else (Some filename) DEFAULT_MODEL_CONFIG_FILE = filename)
    by (cbn; now rewrite Hfn).
  assert (Hload : forall k,
             Dict.get "name" doc = None /\ k = "name"
             \/ (exists n, Dict.get "name" doc = Some n)
                /\ Dict.get "config_type" doc = None /\ k = "config_type" ->
             Config_load DEFAULT_MODEL_CONFIG_FILE HEZAR_CACHE_DIR ct registry
               save_dir (Some filename) subfolder repo_type kwargs w1
             = (Raise (KeyError k), w1)).
  { intros k Hk. unfold Config_load. monad_unfold. cbn [or_else].
    rewrite Hfn. cbn. rewrite Hfile, andb_false_r. cbn. rewrite Hread. cbn.
    unfold getitem.
    destruct Hk as [[Hn ->] | ([n Hn] & Ht & ->)]; rewrite Hn; cbn; [reflexivity|].
    now rewrite Ht. }
  destruct (Dict.get "name" doc) as [n|] eqn:Hn.
  - destruct (Dict.get "config_type" doc) as [t|] eqn:Ht.
    + exfalso. destruct Hfields as [Hf | Hf]; apply Hmissing in Hf; congruence.
    + exists "config_type". split; [now right|]. apply Hload. right. eauto.
  - exists "name". split; [now left|]. apply Hload. left. auto.
Qed.
Lemma hf_hub_download_is_recorded repo_id filename subfolder cache_dir repo_type w :
  w_downloads (snd (hf_hub_download repo_id filename subfolder cache_dir repo_type w))
  = (w_downloads w
     ++ [ {| dl_repo_id := repo_id; dl_filename := filename; dl_subfolder := subfolder;
             dl_cache_dir := cache_dir; dl_repo_type := repo_type |} ])%list.
Proof.
  unfold hf_hub_download. monad_unfold. cbn.
  destruct (List.find _ (w_hub w)) as [f|]; cbn; [|reflexivity].
  destruct (FS.makedirs _ _ true) as [fs1|e]; cbn; [|reflexivity].
  destruct (FS.write fs1 _ _) as [fs2|e]; cbn; reflexivity.
Qed.

(** X11.  When the location is no local directory and the composed file does
    not exist locally, [load] asks the Hub for the file exactly once,
    with the location as repository, the filename (or the default one),
    the subfolder (or the empty one), the cache directory of hezar and the
    repository type it was given; this holds whatever the download and
    the steps after it do. *)
Theorem load_asks_the_hub_once_for_a_missing_file
    w path filename subfolder repo_type kwargs :
  let filename' := or_else filename DEFAULT_MODEL_CONFIG_FILE in
  let subfolder' := or_else subfolder "" in
  FS.isdir (w_fs w) path = false ->
  FS.isfile (w_fs w) (Path.join3 path subfolder' filename') = false ->
  w_downloads
    (snd (Config_load DEFAULT_MODEL_CONFIG_FILE HEZAR_CACHE_DIR ct registry
            path filename subfolder repo_type kwargs w))
  = (w_downloads w
     ++ [ {| dl_repo_id := path; dl_filename := filename'; dl_subfolder := subfolder';
             dl_cache_dir := HEZAR_CACHE_DIR; dl_repo_type := repo_type |} ])%list.
Proof.
  intros filename' subfolder' Hdir Hfile.
  pose proof (hf_hub_download_is_recorded path filename' subfolder' HEZAR_CACHE_DIR
                repo_type w) as Hrecorded.
  unfold Config_load. cbv zeta. fold filename' subfolder'.
  remember (hf_hub_download path filename' subfolder' HEZAR_CACHE_DIR repo_type) as fetch.
  monad_unfold. cbn. rewrite Hdir, Hfile. cbn.
  destruct (fetch w) as [[config_path|e] w1]; cbn in *; [|assumption].
  rewrite <- Hrecorded.
  repeat match goal with
         | |- context [match ?x with _ => _ end] => destruct x; cbn; try reflexivity
         end.
Qed.

End LoadMore.

(** ** [update]: where it raises and what it leaves *)

Section UpdateMore.
Variable ct : gmap string klass.
#[local] Arguments setattr : simpl never.

Lemma for_each_app {A} (l1 l2 : list A) (body : A -> M unit) w :
  for_each (l1 ++ l2) body w
  = match for_each l1 body w with
    | (Ok _, w') => for_each l2 body w'
    | (Raise e, w') => (Raise e, w')
    end.
Proof.
  revert w. induction l1 as [|x l1 IH]; intros w; cbn; [reflexivity|].
  unfold bind. destruct (body x w) as [[[]|e] w1]; [apply IH | reflexivity].
Qed.

(** X12.  On an instance none of whose classes annotates a name, as those of
    [ModelConfig], [PreprocessorConfig], [EmbeddingConfig] and
    [MetricConfig], [update] with a patch that is not empty raises
    [AttributeError] at the first key, on [__annotations__]: the instance
    is left as it was and nothing is logged, but the caller's dictionary
    has received the keyword arguments.  With an empty patch it returns
    the instance. *)
Theorem update_raises_where_no_class_annotates w self d cls attrs items kwargs :
  w_heap w !! self = Some (VInst cls attrs) ->
  w_heap w !! d = Some (VDict items) ->
  mro_annotations ct (mro_of ct cls) = None ->
  Dict.get "__annotations__" attrs = None ->
  let patch := Dict.update items kwargs in
  let w1 := set_heap (<[d := VDict patch]> (w_heap w)) w in
  Config_update ct self d kwargs w
  = (match patch with
     | [] => Ok self
     | _ :: _ =>
         Raise (AttributeError ("'" ++ cls ++ "' object has no attribute '__annotations__'"))
     end, w1)
  /\ w_heap w1 !! self = Some (VInst cls attrs)
  /\ w_log w1 = w_log w.
Proof.
  intros Hself Hd Hnames Hann patch w1.
  assert (Hne : self <> d) by (intros ->; congruence).
  assert (Hself1 : w_heap w1 !! self = Some (VInst cls attrs)).
  { unfold w1. cbn. now rewrite lookup_insert_ne by congruence. }
  split; [|split; [exact Hself1 | reflexivity]].
  unfold Config_update. monad_unfold. rewrite Hd. cbn. fold patch. fold w1.
  destruct patch as [|[k v] rest]; [reflexivity|].
  cbn [for_each]. unfold bind at 1.
  assert (Hstep : update_step ct self (k, v) w1
                  = (Raise (AttributeError
                              ("'" ++ cls ++ "' object has no attribute '__annotations__'")), w1)).
  { unfold update_step. monad_unfold. rewrite Hself1. cbn. now rewrite Hann, Hnames. }
  now rewrite Hstep.
Qed.

(** X13.  The keys that [update] warns about are those outside the
    [__annotations__] that the instance resolves, which are the names that
    the nearest annotating class annotates itself.  For a patch whose keys
    are all stored by assignment (none is a property of the class, one of
    [__class__], [__dict__] and [__weakref__], or [__annotations__]), the
    call returns, and a declared field that the instance inherits from a
    base of the annotating class is warned about, and set, like an unknown
    key. *)
Theorem update_warns_about_an_inherited_field w self d cls attrs items kwargs names k :
  w_heap w !! self = Some (VInst cls attrs) ->
  w_heap w !! d = Some (VDict items) ->
  mro_annotations ct (mro_of ct cls) = Some names ->
  Dict.get "__annotations__" attrs = None ->
  forallb (assignable ct cls) (Dict.keys (Dict.update items kwargs)) = true ->
  In k (Dict.keys (Dict.update items kwargs)) ->
  is_field ct cls k = true ->
  string_in k names = false ->
  exists w',
    Config_update ct self d kwargs w = (Ok self, w')
    /\ w_heap w' !! self = Some (VInst cls (Dict.update attrs (Dict.update items kwargs)))
    /\ In (update_warning cls k) (w_log w').
Proof.
  intros Hself Hd Hnames Hann Hkeys Hin Hfield Hout.
  assert (Hne : self <> d) by (intros ->; congruence).
  set (patch := Dict.update items kwargs) in *.
  set (w1 := set_heap (<[d := VDict patch]> (w_heap w)) w).
  destruct (update_loop ct self cls names patch attrs w1) as (w' & Hrun & Hheap & Hlog & _).
  { unfold w1. cbn. now rewrite lookup_insert_ne by congruence. }
  { assumption. }
  { assumption. }
  { intros k' Hin'. rewrite forallb_forall in Hkeys. apply Hkeys in Hin'.
    unfold assignable in Hin'. apply andb_prop in Hin' as [H1 H2].
    split; [assumption|]. intros ->. discriminate. }
  exists w'. split; [|split].
  - unfold Config_update. monad_unfold. rewrite Hd. cbn. fold patch. fold w1.
    now rewrite Hrun.
  - rewrite Hheap. apply lookup_insert_eq.
  - rewrite Hlog. apply in_or_app. right. apply in_map.
    apply filter_In. split; [assumption | now rewrite Hout].
Qed.

(** X14.  [update] has no undo.  When a key of the patch is a property of the
    class, which cannot be assigned, and the keys before it are all stored
    by assignment (none is a property, one of [__class__], [__dict__] and
    [__weakref__], or [__annotations__]), the call raises at that key: the
    keys before it have been assigned on the instance and warned about,
    the key itself has been warned about if it is outside the
    annotations, and the keys after it are not reached. *)
Theorem update_keeps_the_keys_set_before_it_raises
    w self d cls attrs items kwargs names before k getter v after :
  w_heap w !! self = Some (VInst cls attrs) ->
  w_heap w !! d = Some (VDict items) ->
  mro_annotations ct (mro_of ct cls) = Some names ->
  Dict.get "__annotations__" attrs = None ->
  Dict.update items kwargs = (before ++ (k, v) :: after)%list ->
  forallb (assignable ct cls) (Dict.keys before) = true ->
  type_lookup ct cls k = Some (VProperty getter) ->
  exists w',
    Config_update ct self d kwargs w
    = (Raise (AttributeError ("property '" ++ k ++ "' of '" ++ cls ++ "' object has no setter")),
       w')
    /\ w_heap w' !! self = Some (VInst cls (Dict.update attrs before))
    /\ w_log w'
       = (w_log w
          ++ map (update_warning cls)
               (List.filter (fun k' => negb (string_in k' names)) (Dict.keys before))
          ++ (if string_in k names then [] else [update_warning cls k]))%list.
Proof.
  intros Hself Hd Hnames Hann Hpatch Hbefore Hk.
  assert (Hne : self <> d) by (intros ->; congruence).
  set (w1 := set_heap (<[d := VDict (Dict.update items kwargs)]> (w_heap w)) w).
  assert (Hassign : forall k', In k' (Dict.keys before) ->
                               settable ct cls k' = true /\ k' <> "__annotations__").
  { intros k' Hin'. rewrite forallb_forall in Hbefore. apply Hbefore in Hin'.
    unfold assignable in Hin'. apply andb_prop in Hin' as [H1 H2].
    split; [assumption|]. intros ->. discriminate. }
  destruct (update_loop ct self cls names before attrs w1) as (w2 & Hrun & Hheap & Hlog & _).
  { unfold w1. cbn. now rewrite lookup_insert_ne by congruence. }
  { assumption. }
  { assumption. }
  { assumption. }
  assert (Hself2 : w_heap w2 !! self = Some (VInst cls (Dict.update attrs before)))
    by (rewrite Hheap; apply lookup_insert_eq).
  assert (Hann2 : Dict.get "__annotations__" (Dict.update attrs before) = None).
  { rewrite DictFacts.get_update_absent; [assumption|].
    intros Hin'. now apply Hassign in Hin' as [_ H]. }
  set (msgs := if string_in k names then [] else [update_warning cls k]).
  assert (Hstep : update_step ct self (k, v) w2
                  = (Raise (AttributeError
                              ("property '" ++ k ++ "' of '" ++ cls ++ "' object has no setter")),
                     {| w_heap := w_heap w2; w_fs := w_fs w2; w_hub := w_hub w2;
                        w_downloads := w_downloads w2;
                        w_log := (w_log w2 ++ msgs)%list |})).
  { unfold update_step. monad_unfold. rewrite Hself2. cbn. rewrite Hann2, Hnames. cbn.
    assert (Hraise : setattr ct (VInst cls (Dict.update attrs before)) k v
                     = Raise (AttributeError
                                ("property '" ++ k ++ "' of '" ++ cls ++ "' object has no setter"))).
    { unfold setattr. now rewrite Hk. }
    unfold msgs. destruct (string_in k names); cbn; rewrite Hraise; cbn.
    - destruct w2. cbn. now rewrite app_nil_r.
    - reflexivity. }
  eexists. split; [|split].
  - unfold Config_update. monad_unfold. rewrite Hd. cbn. fold w1.
    rewrite Hpatch, for_each_app, Hrun. cbn [for_each]. unfold bind at 1.
    rewrite Hstep. reflexivity.
  - exact Hself2.
  - cbn. rewrite Hlog. unfold w1. cbn. now rewrite <- app_assoc.
Qed.

End UpdateMore.

(** ** [save]: what is written *)


Section SaveMore.
Variable ct : gmap string klass.


End SaveMore.

(** ** Paths that end in a separator *)

Lemma split_is_not_empty sep s : Str.split sep s <> [].
Proof.
  destruct s as [|c s]; cbn [Str.split]; [discriminate|].
  destruct (Ascii.eqb c sep); [discriminate|].
  destruct (Str.split sep s); discriminate.
Qed.

Lemma split_trailing_separator sep s :
  Str.split sep (s ++ String sep EmptyString) = (Str.split sep s ++ [EmptyString])%list.
Proof.
  induction s as [|c s IH].
  - change (Str.split sep (String sep "") = [""; ""]).
    cbn [Str.split]. now rewrite Ascii.eqb_refl.
  - change (Str.split sep (String c (s ++ String sep ""))
            = (Str.split sep (String c s) ++ [""])%list).
    cbn [Str.split]. destruct (Ascii.eqb c sep); [now rewrite IH|].
    rewrite IH. pose proof (split_is_not_empty sep s) as Hne.
    destruct (Str.split sep s); [congruence | reflexivity].
Qed.

Lemma append_empty s : s ++ "" = s.
Proof.
  induction s as [|c s IH]; [reflexivity|].
  change (String c (s ++ "") = String c s). now f_equal.
Qed.

Lemma norm_trailing_separator t : t <> "" -> Path.norm (t ++ "/") = Path.norm t.
Proof.
  intros Hne. unfold Path.norm, Path.components.
  assert (Habs : Path.isabs (t ++ "/") = Path.isabs t).
  { destruct t as [|c t]; [congruence|].
    change (String c t ++ "/") with (String c (t ++ "/")).
    unfold Path.isabs, Str.startswith. cbn [String.prefix].
    destruct (ascii_dec "/" c); [|reflexivity]. now destruct t. }
  rewrite Habs. f_equal. f_equal.
  rewrite (split_trailing_separator "/" t), fold_left_app. reflexivity.
Qed.

(** Joining the empty name to a directory names the directory itself. *)
Lemma norm_join_empty t : t <> "" -> Path.norm (Path.join t "") = Path.norm t.
Proof.
  intros Hne. unfold Path.join. cbn [Str.startswith String.prefix].
  destruct (String.eqb t "" || Str.endswith_char "/" t).
  - now rewrite append_empty.
  - change ("/" ++ "") with "/". now apply norm_trailing_separator.
Qed.

Lemma join_empty_is_not_empty t : t <> "" -> Path.join t "" <> "".
Proof.
  intros Hne. unfold Path.join. cbn [Str.startswith String.prefix].
  destruct t as [|c t]; [congruence|].
  destruct (String.eqb (String c t) "" || Str.endswith_char "/" (String c t)).
  - change (String c (t ++ "") <> ""). discriminate.
  - change (String c (t ++ "/" ++ "") <> ""). discriminate.
Qed.

Section SaveEmptyName.
Variable ct : gmap string klass.

(** X16.  [save] with an empty filename never returns a path: where the
    instance is serialised and the directory made, the path that
    [os.path.join] composes names that directory, writing to it raises
    [IsADirectoryError], and the directory stays. *)
Theorem save_with_an_empty_filename_raises c save_dir subfolder w :
  let target := Path.join save_dir (or_else subfolder "") in
  is_ok (fst (Config_save ct c save_dir "" subfolder w)) = false
  /\ forall items fs1,
       Config_dict ct c = Ok items ->
       FS.makedirs (w_fs w) target true = Ok fs1 ->
       Config_save ct c save_dir "" subfolder w
       = (Raise (IsADirectoryError (Path.join target "")), set_fs fs1 w)
       /\ FS.isdir fs1 target = true.
Proof.
  intros target.
  assert (Hwrite : forall fs1 doc,
             FS.makedirs (w_fs w) target true = Ok fs1 ->
             FS.write fs1 (Path.join target "") doc
             = Raise (IsADirectoryError (Path.join target ""))).
  { intros fs1 doc Hmk.
    pose proof (FSFacts.makedirs_isdir _ _ _ _ Hmk) as Hdir.
    unfold FS.isdir in Hdir. apply andb_prop in Hdir as [Hne Hdir].
    apply negb_true_iff, String.eqb_neq in Hne.
    unfold FS.write. rewrite (norm_join_empty target Hne), Hdir.
    pose proof (join_empty_is_not_empty target Hne) as Hp.
    apply String.eqb_neq in Hp. now rewrite Hp. }
  split.
  - unfold Config_save. monad_unfold.
    destruct (Config_dict ct c) as [items|e]; cbn; [|reflexivity].
    fold target.
    destruct (FS.makedirs (w_fs w) target true) as [fs1|e]; cbn; [|reflexivity].
    unfold Path.join3. fold target. now rewrite (Hwrite fs1 _ eq_refl).
  - intros items fs1 Hdict Hmk. split.
    + unfold Config_save. monad_unfold. rewrite Hdict. cbn. fold target.
      rewrite Hmk. cbn. unfold Path.join3. fold target.
      now rewrite (Hwrite fs1 _ Hmk).
    + now apply FSFacts.makedirs_isdir in Hmk.
Qed.

End SaveEmptyName.

(** ** [push_to_hub]: the order of its steps *)

Lemma or_else_empty_twice subfolder : or_else (Some (or_else subfolder "")) "" = or_else subfolder "".
Proof.
  unfold or_else at 1. destruct (String.eqb_spec (or_else subfolder "") ""); congruence.
Qed.

Section PushToHubOrder.
Variable snake_case : string -> string.
Variable ct : gmap string klass.
Variable mkdtemp : FS.t -> result (string * FS.t).
Variable str_of : value -> string.

Lemma save_returns_the_joined_path self save_dir filename subfolder w path w1 :
  Config_save ct self save_dir filename subfolder w = (Ok path, w1) ->
  path = Path.join3 save_dir (or_else subfolder "") filename.
Proof.
  unfold Config_save. monad_unfold. intros H.
  destruct (Config_dict ct self); cbn in H; [|discriminate].
  destruct (FS.makedirs _ _ true); cbn in H; [|discriminate].
  destruct (FS.write _ _ _); cbn in H; [|discriminate].
  now injection H as <- _.
Qed.

(** The steps of [push_to_hub], one after the other. *)
Lemma push_to_hub_steps self repo_id filename subfolder repo_type private commit_message w h :
  let sub := or_else subfolder "" in
  let created :=
    add_repo {| cr_repo_id := repo_id; cr_repo_type := repo_type;
                cr_private := private; cr_exist_ok := true |} h in
  Config_push_to_hub snake_case ct mkdtemp str_of self repo_id filename subfolder repo_type
    private commit_message (w, h)
  = match mkdtemp (w_fs w) with
    | Raise e => (Raise e, (w, created))
    | Ok (cache_path, fs1) =>
        match Config_save ct self cache_path filename (Some sub) (set_fs fs1 w) with
        | (Raise e, w2) => (Raise e, (w2, created))
        | (Ok config_path, w2) =>
            let uploaded :=
              add_upload
                {| up_path_or_fileobj := config_path;
                   up_path_in_repo :=
                     match subfolder with
                     | Some s => if String.eqb s "" then filename else s ++ "/" ++ filename
                     | None => filename
                     end;
                   up_repo_id := repo_id;
                   up_repo_type := repo_type;
                   up_commit_message :=
                     match commit_message with
                     | None => "Hezar: Upload " ++ filename
                     | Some m => m
                     end |} created in
            match class_name self with
            | Raise e => (Raise e, (w2, uploaded))
            | Ok cls =>
                match getattr snake_case ct self "name" w2 with
                | (Raise e, w3) => (Raise e, (w3, uploaded))
                | (Ok name, w3) =>
                    (Ok tt,
                     (w3, add_info ("Uploaded:`" ++ cls ++ "(name=" ++ str_of name ++ ")` --> `"
                                    ++ Path.join3 repo_id sub filename ++ "`") uploaded))
                end
            end
        end
    end.
Proof.
  intros sub created. unfold Config_push_to_hub. fold sub.
  remember (Config_save ct self) as save eqn:Hsave.
  remember (getattr snake_case ct self "name") as read eqn:Hread.
  unfold bindH, on_hub, in_world, retH. monad_unfold. cbn.
  destruct (mkdtemp (w_fs w)) as [[cache_path fs1]|e]; cbn; [|reflexivity].
  change {| w_heap := w_heap w; w_fs := fs1; w_hub := w_hub w;
            w_downloads := w_downloads w; w_log := w_log w |} with (set_fs fs1 w).
  destruct (save cache_path filename (Some sub) (set_fs fs1 w)) as [[config_path|e] w2];
    cbn; [|reflexivity].
  destruct (class_name self) as [cls|e]; cbn; [|reflexivity].
  destruct (read w2) as [[name|e] w3]; cbn; reflexivity.
Qed.

(** X17.  [push_to_hub] creates the repository first and in every case, with
    [exist_ok=True]; then it saves to a temporary directory and, only when
    that has returned, uploads the file at the path that [save] returned,
    which is the temporary directory joined with the subfolder and the
    filename, under the path [subfolder/filename] of the repository, or
    [filename] alone without a subfolder, with the commit message
    "Hezar: Upload filename" unless one is given.  When the temporary
    directory cannot be made or [save] raises, the repository has been
    created and nothing is uploaded. *)
Theorem push_to_hub_creates_saves_then_uploads
    self repo_id filename subfolder repo_type private commit_message w h :
  let sub := or_else subfolder "" in
  let call := {| cr_repo_id := repo_id; cr_repo_type := repo_type;
                 cr_private := private; cr_exist_ok := true |} in
  let out := Config_push_to_hub snake_case ct mkdtemp str_of self repo_id filename subfolder
               repo_type private commit_message (w, h) in
  h_repos (snd (snd out)) = (h_repos h ++ [call])%list
  /\ (forall e, mkdtemp (w_fs w) = Raise e -> out = (Raise e, (w, add_repo call h)))
  /\ (forall cache_path fs1,
        mkdtemp (w_fs w) = Ok (cache_path, fs1) ->
        (forall e w2,
           Config_save ct self cache_path filename (Some sub) (set_fs fs1 w) = (Raise e, w2) ->
           out = (Raise e, (w2, add_repo call h)))
        /\ (forall config_path w2,
              Config_save ct self cache_path filename (Some sub) (set_fs fs1 w)
              = (Ok config_path, w2) ->
              config_path = Path.join3 cache_path sub filename
              /\ h_uploads (snd (snd out))
                 = (h_uploads h
                    ++ [ {| up_path_or_fileobj := config_path;
                            up_path_in_repo :=
                              match subfolder with
                              | Some s =>
                                  if String.eqb s "" then filename else s ++ "/" ++ filename
                              | None => filename
                              end;
                            up_repo_id := repo_id;
                            up_repo_type := repo_type;
                            up_commit_message :=
                              match commit_message with
                              | None => "Hezar: Upload " ++ filename
                              | Some m => m
                              end |} ])%list)).
Proof.
  intros sub call out. unfold out. rewrite push_to_hub_steps. fold sub. fold call.
  split; [|split].
  - destruct (mkdtemp (w_fs w)) as [[cache_path fs1]|e]; [|reflexivity].
    destruct (Config_save ct self cache_path filename (Some sub) (set_fs fs1 w))
      as [[config_path|e] w2]; [|reflexivity].
    cbv zeta. destruct (class_name self); [|reflexivity].
    destruct (getattr snake_case ct self "name" w2) as [[name|e] w3]; reflexivity.
  - now intros e ->.
  - intros cache_path fs1 ->. split.
    + now intros e w2 ->.
    + intros config_path w2 Hsave. rewrite Hsave. split.
      * rewrite (save_returns_the_joined_path _ _ _ _ _ _ _ Hsave).
        unfold sub. now rewrite or_else_empty_twice.
      * cbv zeta. destruct (class_name self); [|reflexivity].
        destruct (getattr snake_case ct self "name" w2) as [[name|e] w3]; reflexivity.
Qed.

End PushToHubOrder.

(** * The further properties on the example programs *)

Lemma config_type_returns_iff_witness :
  let out := Config_config_type user_classes my_trainer_config empty_world in
  let known := fun k => Dict.mem k CONFIG_TYPES_MAPPING in
  (is_ok (fst out) = true
   <-> known "TrainerConfig" = true
       /\ (known "MyTrainerConfig" = true \/ "TrainerConfig" = "Config"))
  /\ (is_ok (fst out) = false ->
      snd out = empty_world
      /\ ((known "TrainerConfig" = false /\ fst out = Raise (KeyError "TrainerConfig"))
          \/ (known "TrainerConfig" = true /\ fst out = Raise (KeyError "MyTrainerConfig"))))
  /\ (is_ok (fst out) = true ->
      (known "MyTrainerConfig" = true -> snd out = empty_world)
      /\ (known "MyTrainerConfig" = false -> exists msg, snd out = add_log msg empty_world)).
Proof.
  apply (config_type_returns_iff user_classes "MyTrainerConfig" "TrainerConfig"
           ["Config"; "object"] (fields_of my_trainer_config) empty_world).
  vm_compute. exact eq_refl.
Defined.

Lemma config_type_of_a_direct_subclass_is_its_name_witness :
  Config_config_type experiment_classes (VInst "ExperimentConfig" [("seed", VInt 0)]) empty_world
  = (Ok "experiment",
     add_log ("You are attempting to create a config class from the base class `Config` which is "
              ++ "not recommended!" ++ newline
              ++ "Your config class is ExperimentConfig "
              ++ "and the `config_type` will be `experiment`") empty_world).
Proof.
  apply (config_type_of_a_direct_subclass_is_its_name experiment_classes "ExperimentConfig"
           ["object"] [("seed", VInt 0)] empty_world);
    vm_compute; exact eq_refl.
Defined.

Lemma dict_holds_no_instance_witness :
  plain optimizer_config = false
  /\ forallb (fun kv => plain (snd kv)) optimizer_items = true
  /\ asdict_inner hezar_classes (VDict optimizer_items) = Ok (VDict optimizer_items).
Proof.
  split; [reflexivity|].
  apply (dict_holds_no_instance hezar_classes optimizer_config optimizer_items).
  vm_compute. exact eq_refl.
Defined.



Lemma get_uses_the_default_for_missing_names_only_witness :
  Config_get snake_case_model user_classes trainer_config "patience" (VInt 5) empty_world
  = (Ok (VInt 5), empty_world)
  /\ Config_get snake_case_model user_classes (VInst "ModelConfig" []) "__annotations__"
       (VInt 5) empty_world
     = (Ok (VInt 5), empty_world)
  /\ (exists items,
        Config_get snake_case_model user_classes my_trainer_config "__annotations__"
          (VInt 5) empty_world
        = (Ok (VDict items), empty_world)
        /\ Dict.keys items = ["patience"])
  /\ Config_get snake_case_model user_classes trainer_config "seed" (VInt 5) empty_world
     = (Ok (VInt 42), empty_world)
  /\ fst (Config_get snake_case_model user_classes bert_config_value "config_type"
            (VStr "model") empty_world)
     = Raise (KeyError "BertLMConfig").
Proof.
  split; [|split; [|split; [|split]]].
  - apply (proj1 (get_uses_the_default_for_missing_names_only snake_case_model user_classes
                    "TrainerConfig" (fields_of trainer_config) "patience" (VInt 5)
                    empty_world));
      [vm_compute; exact eq_refl | vm_compute; exact eq_refl | vm_compute; exact eq_refl |].
    discriminate.
  - apply (proj1 (get_uses_the_default_for_missing_names_only snake_case_model user_classes
                    "ModelConfig" [] "__annotations__" (VInt 5) empty_world));
      [vm_compute; exact eq_refl | vm_compute; exact eq_refl | vm_compute; exact eq_refl |].
    intros _. vm_compute. exact eq_refl.
  - apply (proj1 (proj2 (get_uses_the_default_for_missing_names_only snake_case_model
                           user_classes "MyTrainerConfig" (fields_of my_trainer_config)
                           "__annotations__" (VInt 5) empty_world)) ["patience"]);
      vm_compute; exact eq_refl.
  - apply (proj1 (proj2 (proj2 (get_uses_the_default_for_missing_names_only snake_case_model
                                  user_classes "TrainerConfig" (fields_of trainer_config)
                                  "seed" (VInt 5) empty_world))));
      vm_compute; exact eq_refl.
  - change bert_config_value with (VInst "BertLMConfig" (fields_of bert_config_value)).
    rewrite (proj2 (proj2 (proj2 (get_uses_the_default_for_missing_names_only
                                    snake_case_model user_classes "BertLMConfig"
                                    (fields_of bert_config_value) "config_type"
                                    (VStr "model") empty_world))));
      vm_compute; exact eq_refl.
Defined.

Lemma from_dict_keyword_wins_over_mapping_over_default_witness :
  exists attrs,
    Config_from_dict user_classes "TrainerConfig"
      [("seed", VInt 1); ("batch_size", VInt 8)] [("seed", VInt 7)]
    = Ok (VInst "TrainerConfig" attrs)
    /\ Dict.get "seed" attrs = Some (VInt 7)
    /\ Dict.get "batch_size" attrs = Some (VInt 8)
    /\ Dict.get "device" attrs = Some (VStr "cuda").
Proof.
  destruct (from_dict_keyword_wins_over_mapping_over_default user_classes "TrainerConfig"
              [("seed", VInt 1); ("batch_size", VInt 8)] [("seed", VInt 7)])
    as (attrs & Hbuild & _ & Hvalues); try (vm_compute; exact eq_refl).
  exists attrs. split; [exact Hbuild|]. split; [|split].
  - destruct (Hvalues "seed" (VInt 42)) as (Hkw & _ & _); [vm_compute; exact eq_refl|].
    apply Hkw. reflexivity.
  - destruct (Hvalues "batch_size" VNone) as (_ & Hmap & _); [vm_compute; exact eq_refl|].
    apply Hmap; reflexivity.
  - destruct (Hvalues "device" (VStr "cuda")) as (_ & _ & Hdflt); [vm_compute; exact eq_refl|].
    apply Hdflt; reflexivity.
Defined.

Lemma from_dict_raises_for_a_field_without_default_witness :
  exists msg,
    Config_from_dict experiment_classes "VocabConfig" [("vocab_size", VInt 50000)] []
    = Raise (TypeError msg).
Proof.
  apply (from_dict_raises_for_a_field_without_default experiment_classes "VocabConfig"
           [("vocab_size", VInt 50000)] [] "vocab_size");
    vm_compute; exact eq_refl.
Defined.

Lemma load_reads_the_local_file_and_resolves_its_class_witness :
  let out := Config_load example_config_file example_cache_dir user_classes user_registry
               "saved/gpt2" None None None [("strict", VBool true)] gpt2_saved_world in
  snd out = gpt2_saved_world
  /\ fst out = Raise (TypeError "from_dict() got multiple values for an argument").
Proof.
  intros out.
  destruct (load_reads_the_local_file_and_resolves_its_class
              example_config_file example_cache_dir user_classes user_registry
              gpt2_saved_world "saved/gpt2" None None None [("strict", VBool true)]
              gpt2_saved_document)
    as (Hstate & _ & Hclass); try (vm_compute; exact eq_refl).
  split; [exact Hstate|].
  destruct (Hclass (VStr "gpt2") (VStr "model") "GPT2Config") as [Hstrict _];
    [reflexivity | reflexivity | reflexivity |].
  apply Hstrict. reflexivity.
Defined.

Lemma load_raises_where_a_discriminator_is_no_field_witness :
  exists msg,
    Config_load example_config_file example_cache_dir hezar_classes trainer_registry
      "saved/trainer" (Some "train_config.yaml") None None [] trainer_file_world
    = (Raise (TypeError msg), trainer_file_world).
Proof.
  apply (load_raises_where_a_discriminator_is_no_field
           example_config_file example_cache_dir hezar_classes trainer_registry
           trainer_file_world "saved/trainer" (Some "train_config.yaml") None None []
           trainer_document (VStr "trainer") (VStr "trainer") "TrainerConfig" "name");
    try (vm_compute; exact eq_refl).
  now left.
Defined.

Lemma load_after_save_raises_where_a_discriminator_is_no_field_witness :
  exists key,
    (key = "name" \/ key = "config_type")
    /\ Config_load example_config_file example_cache_dir hezar_classes user_registry
         "saved/criterion" (Some "criterion.yaml") None None [] criterion_saved_world
       = (Raise (KeyError key), criterion_saved_world).
Proof.
  apply (load_after_save_raises_where_a_discriminator_is_no_field
           example_config_file example_cache_dir hezar_classes user_registry
           "CriterionConfig" (fields_of criterion_config) "saved/criterion" "criterion.yaml"
           None None [] empty_world "saved/criterion/criterion.yaml" criterion_saved_world);
    [vm_compute; exact eq_refl | reflexivity |].
  left. vm_compute. exact eq_refl.
Defined.

Lemma load_asks_the_hub_once_for_a_missing_file_witness :
  w_downloads
    (snd (Config_load example_config_file example_cache_dir user_classes user_registry
            "hezarai/bert-base-fa" None None (Some "model") [] empty_world))
  = [ {| dl_repo_id := "hezarai/bert-base-fa"; dl_filename := "model_config.yaml";
         dl_subfolder := ""; dl_cache_dir := "/root/.cache/hezar";
         dl_repo_type := Some "model" |} ].
Proof.
  apply (load_asks_the_hub_once_for_a_missing_file
           example_config_file example_cache_dir user_classes user_registry
           empty_world "hezarai/bert-base-fa" None None (Some "model") []);
    vm_compute; exact eq_refl.
Defined.

Lemma update_raises_where_no_class_annotates_witness :
  let w := update_world (VInst "ModelConfig" []) [("vocab_size", VInt 50000)] in
  let out := Config_update user_classes 0 1 [("hidden_size", VInt 768)] w in
  fst out = Raise (AttributeError "'ModelConfig' object has no attribute '__annotations__'")
  /\ w_heap (snd out) !! 0%nat = Some (VInst "ModelConfig" [])
  /\ w_heap (snd out) !! 1%nat
     = Some (VDict [("vocab_size", VInt 50000); ("hidden_size", VInt 768)])
  /\ w_log (snd out) = [].
Proof.
  intros w out.
  destruct (update_raises_where_no_class_annotates user_classes w 0 1 "ModelConfig" []
              [("vocab_size", VInt 50000)] [("hidden_size", VInt 768)])
    as (Hrun & _ & _); try (vm_compute; exact eq_refl).
  unfold out. rewrite Hrun. repeat split.
Defined.

Lemma update_warns_about_an_inherited_field_witness :
  exists w',
    Config_update user_classes 0 1 [] (update_world my_trainer_config [("batch_size", VInt 8)])
    = (Ok 0%nat, w')
    /\ w_heap w' !! 0%nat
       = Some (VInst "MyTrainerConfig"
                 (Dict.update (fields_of my_trainer_config) [("batch_size", VInt 8)]))
    /\ In (update_warning "MyTrainerConfig" "batch_size") (w_log w').
Proof.
  apply (update_warns_about_an_inherited_field user_classes
           (update_world my_trainer_config [("batch_size", VInt 8)]) 0 1 "MyTrainerConfig"
           (fields_of my_trainer_config) [("batch_size", VInt 8)] [] ["patience"] "batch_size");
    try (vm_compute; exact eq_refl).
  left. reflexivity.
Defined.

Lemma update_keeps_the_keys_set_before_it_raises_witness :
  exists w',
    Config_update user_classes 0 1 []
      (update_world trainer_config
         [("seed", VInt 7); ("name", VStr "my_trainer"); ("device", VStr "cpu")])
    = (Raise (AttributeError "property 'name' of 'TrainerConfig' object has no setter"), w')
    /\ w_heap w' !! 0%nat
       = Some (VInst "TrainerConfig" (Dict.update (fields_of trainer_config) [("seed", VInt 7)]))
    /\ w_log w' = [update_warning "TrainerConfig" "name"].
Proof.
  apply (update_keeps_the_keys_set_before_it_raises user_classes
           (update_world trainer_config
              [("seed", VInt 7); ("name", VStr "my_trainer"); ("device", VStr "cpu")])
           0 1 "TrainerConfig" (fields_of trainer_config)
           [("seed", VInt 7); ("name", VStr "my_trainer"); ("device", VStr "cpu")] []
           [ "task"; "device"; "init_weights_from"; "dataset_config";
             "num_dataloader_workers"; "seed"; "optimizer"; "batch_size";
             "use_amp"; "metrics"; "num_epochs"; "save_freq"; "checkpoints_dir";
             "log_dir" ]
           [("seed", VInt 7)] "name" "name" (VStr "my_trainer") [("device", VStr "cpu")]);
    vm_compute; exact eq_refl.
Defined.


Lemma save_with_an_empty_filename_raises_witness :
  Config_save hezar_classes trainer_config "saved/trainer" "" None empty_world
  = (Raise (IsADirectoryError "saved/trainer/"), set_fs trainer_directory empty_world)
  /\ FS.isdir trainer_directory "saved/trainer" = true.
Proof.
  apply (proj2 (save_with_an_empty_filename_raises hezar_classes trainer_config
                  "saved/trainer" None empty_world) trainer_items trainer_directory);
    vm_compute; exact eq_refl.
Defined.

Lemma push_to_hub_creates_saves_then_uploads_witness :
  let out := Config_push_to_hub snake_case_model user_classes example_mkdtemp example_str
               gpt2_config "hezarai/gpt2" "model_config.yaml" (Some "configs") (Some "model")
               (Some false) None (empty_world, empty_hub_log) in
  h_repos (snd (snd out))
  = [ {| cr_repo_id := "hezarai/gpt2"; cr_repo_type := Some "model";
         cr_private := Some false; cr_exist_ok := true |} ]
  /\ h_uploads (snd (snd out))
     = [ {| up_path_or_fileobj := "/tmp/tmp8x2k/configs/model_config.yaml";
            up_path_in_repo := "configs/model_config.yaml";
            up_repo_id := "hezarai/gpt2";
            up_repo_type := Some "model";
            up_commit_message := "Hezar: Upload model_config.yaml" |} ].
Proof.
  intros out.
  destruct (push_to_hub_creates_saves_then_uploads snake_case_model user_classes
              example_mkdtemp example_str gpt2_config "hezarai/gpt2" "model_config.yaml"
              (Some "configs") (Some "model") (Some false) None empty_world empty_hub_log)
    as (Hrepos & _ & Hsaved).
  split; [exact Hrepos|].
  destruct (Hsaved "/tmp/tmp8x2k"
              (match example_mkdtemp FS.empty with Ok made => snd made | Raise _ => FS.empty end))
    as [_ Hupload]; [vm_compute; exact eq_refl|].
  destruct (Hupload "/tmp/tmp8x2k/configs/model_config.yaml"
              (snd (Config_save user_classes gpt2_config "/tmp/tmp8x2k" "model_config.yaml"
                      (Some "configs")
                      (set_fs (match example_mkdtemp FS.empty with
                               | Ok made => snd made
                               | Raise _ => FS.empty
                               end) empty_world))))
    as [_ Hcall]; [vm_compute; exact eq_refl|].
  exact Hcall.
Defined.
